(** * CliMAF macros (climaf/cmacros.py): matcher, instantiator, builder,
      rewriter and macro-file reader, as a shallow embedding.

    The module is Python 2.  Objects are modelled by the inductive type
    [pyobj]; a call either returns a value or raises an exception
    ([outcome]); the list of operands that [instantiate] pops from is
    threaded explicitly, and so is the module state (the dictionary
    [cmacros] and the messages sent to the logger at info and error
    level). *)

From Stdlib Require Import List String Ascii Bool ZArith Lia PeanoNat.
From Stdlib Require Import DecimalString Permutation.
Import ListNotations.
Local Open Scope string_scope.
Local Open Scope list_scope.

(** ** Python values *)

(** Literal values of operator parameters. *)
Inductive pylit : Type :=
| LInt (z : Z)
| LStr (s : string).

Definition pylit_eqb (a b : pylit) : bool :=
  match a, b with
  | LInt x, LInt y => Z.eqb x y
  | LStr x, LStr y => String.eqb x y
  | _, _ => false
  end.

(** A Python dict with string keys, kept in its iteration order. *)
Definition pydict (V : Type) : Type := list (string * V).

Fixpoint getitem {V : Type} (d : pydict V) (k : string) : option V :=
  match d with
  | [] => None
  | (k', v) :: d' => if String.eqb k' k then Some v else getitem d' k
  end.

(** The objects that reach the functions of the module: the five node
    classes of classes.py ([cdataset], [ctree], [scriptChild], [cpage])
    and of this module ([cdummy]), [None], the class object [cdataset]
    itself, and any other object (neither a node, nor [None], nor a
    [str]), which is identified by its repr. *)
#[warnings="-register-all"]
Inductive pyobj : Type :=
| cdataset (kvp : pydict string)
| cdummy
| ctree (operator : string) (script : string)
        (operands : list pyobj) (parameters : pydict pylit)
| scriptChild (father : pyobj) (varname : string)
| cpage (widths_list heights_list : list Z)
        (fig_lines : list (list pyobj)) (orientation : string)
| PyNone
| cdataset_class
| PyOther (repr : string).

(** ** Exceptions and outcomes *)

Inductive macro_error : Type :=
| no_operand_left
| too_many_operands (left_operands : list pyobj).

Inductive exn : Type :=
| Climaf_Macro_Error (valeur : macro_error)
| NameError (name : string)
| UnboundLocalError (name : string)
| AttributeError (attr : string)
| KeyError (key : string)
| TypeError (msg : string)
| IndexError (msg : string)
| RecursionLimit
| HostError (msg : string).

Inductive outcome (A : Type) : Type :=
| Returns (a : A)
| Raises (e : exn).
Arguments Returns {A} a.
Arguments Raises {A} e.

Definition bind {A B : Type} (m : outcome A) (f : A -> outcome B) : outcome B :=
  match m with
  | Returns a => f a
  | Raises e => Raises e
  end.

Notation "x <- m ;; k" := (bind m (fun x => k))
  (at level 61, m at next level, right associativity).

(** ** isinstance tests *)

Definition is_cdummy (o : pyobj) : bool :=
  match o with cdummy => true | _ => false end.

Definition is_cdataset (o : pyobj) : bool :=
  match o with cdataset _ => true | _ => false end.

Definition is_ctree (o : pyobj) : bool :=
  match o with ctree _ _ _ _ => true | _ => false end.

Definition is_scriptChild (o : pyobj) : bool :=
  match o with scriptChild _ _ => true | _ => false end.

Definition is_cpage (o : pyobj) : bool :=
  match o with cpage _ _ _ _ => true | _ => false end.

(** ** cmatch (lines 154-178) *)

(** The loop of lines 162-166 over [zip(macro.parameters, cobj.parameters)]:
    [zip] pairs the keys of the two dicts in iteration order and stops at the
    shorter one; the subscript [macro.parameters[para]] is only evaluated when
    [mpara == para]. *)
Fixpoint parameters_nok (mfull cfull : pydict pylit)
         (mpars cpars : pydict pylit) (nok : bool) : outcome bool :=
  match mpars, cpars with
  | (mpara, _) :: mpars', (para, _) :: cpars' =>
      mismatch <-
        (if negb (String.eqb mpara para) then Returns true
         else match getitem mfull para, getitem cfull para with
              | Some mv, Some cv => Returns (negb (pylit_eqb mv cv))
              | _, _ => Raises (KeyError para)
              end) ;;
      parameters_nok mfull cfull mpars' cpars' (if mismatch then true else nok)
  | _, _ => Returns nok
  end.

(** The name [argslist] of line 177 is bound neither in [cmatch] nor at
    module level, so that evaluating the arguments of the recursive call
    raises [NameError] before the call takes place.  (Were the name bound,
    by a macro registered under it, the call would have one argument too
    many and raise all the same.) *)
Definition module_names : list string :=
  ["sys"; "os"; "cobject"; "cdataset"; "ctree"; "scriptChild"; "cpage";
   "clogger"; "dedent"; "cmacros"; "macroFilename"; "cdummy"; "cmacro";
   "crewrite"; "cmatch"; "read"; "write"; "show"; "instantiate";
   "Climaf_Macro_Error"].

Definition cmatch_locals : list string :=
  ["macro"; "cobj"; "nok"; "mpara"; "para"; "argsub"; "mop"; "op"].

Definition load_name (locals : list string) (name : string) : outcome unit :=
  if existsb (String.eqb name) (locals ++ module_names)
  then Returns tt else Raises (NameError name).

Fixpoint cmatch (macro cobj : pyobj) {struct macro} : outcome (list pyobj) :=
  match macro, cobj with
  | ctree moperator _ moperands mparameters,
    ctree operator _ operands parameters =>
      if String.eqb moperator operator then
        nok <- parameters_nok mparameters parameters mparameters parameters false ;;
        if (nok : bool) then Returns []
        else
          (fix operands_loop (mops ops argsub : list pyobj) {struct mops}
             : outcome (list pyobj) :=
             match mops, ops with
             | mop :: mops', op :: ops' =>
                 if is_cdummy mop then operands_loop mops' ops' (argsub ++ [op])
                 else sub <- cmatch mop op ;;
                      operands_loop mops' ops' (argsub ++ sub)
             | _, _ => Returns argsub
             end) moperands operands []
      else Returns []
  | scriptChild mfather mvarname, scriptChild father varname =>
      if String.eqb mvarname varname then
        _ <- load_name cmatch_locals "argslist" ;;
        Raises (TypeError "cmatch() takes exactly 2 arguments (3 given)")
      else Returns []
  | _, _ => Returns []
  end.

(** ** instantiate (lines 231-254) *)

Section Instantiate.

(** classes.py is not among the sources at hand.  [cmacro] and [cmatch]
    read the attribute [varname] of a [scriptChild]; [instantiate] reads
    [mac.variable] (line 249).  What that attribute read yields is left as
    a parameter: [None] when the object has no attribute of that name. *)
Variable scriptChild_variable : pyobj -> string -> option string.

(** A call with the arguments [**d]: the callee receives a fresh dict with the bindings of [d].
    Its iteration order is its own (in CPython 2.7 it follows from the hashes
    of the keys and from the order in which they are inserted, which is the
    iteration order of [d]) and may differ from that of [d]; it is a
    parameter. *)
Variable kwargs : pydict pylit -> pydict pylit.

(** The state of a call is the list [operands], which [pop(0)] shortens in
    place; the list as the call leaves it is returned along with the
    outcome.  The local [rep] is [None] as long as no branch has bound it. *)
Fixpoint instantiate (mac : pyobj) (operands : list pyobj) (toplevel : bool)
         {struct mac} : outcome pyobj * list pyobj :=
  let '(branch, operands) :=
    match mac with
    | cdummy =>
        match operands with
        | x :: rest => (Returns (Some x), rest)
        | [] => (Raises (Climaf_Macro_Error no_operand_left), [])
        end
    | ctree operator script moperands parameters =>
        let '(r, operands) :=
          (fix operands_loop (os opers operands : list pyobj) {struct os}
             : outcome (list pyobj) * list pyobj :=
             match os with
             | [] => (Returns opers, operands)
             | o :: os' =>
                 match instantiate o operands false with
                 | (Returns v, operands) => operands_loop os' (opers ++ [v]) operands
                 | (Raises e, operands) => (Raises e, operands)
                 end
             end) moperands [] operands in
        (opers <- r ;;
         Returns (Some (ctree operator script opers (kwargs parameters))),
         operands)
    | scriptChild mfather mvarname =>
        match instantiate mfather operands false with
        | (Returns father, operands) =>
            (match scriptChild_variable mfather mvarname with
             | Some variable => Returns (Some (scriptChild father variable))
             | None => Raises (AttributeError "variable")
             end, operands)
        | (Raises e, operands) => (Raises e, operands)
        end
    | cdataset _ => (Returns (Some cdataset_class), operands)
    | _ => (Returns None, operands)
    end in
  match branch with
  | Raises e => (Raises e, operands)
  | Returns rep =>
      if toplevel && negb (Nat.eqb (List.length operands) 0)
      then (Raises (Climaf_Macro_Error (too_many_operands operands)), operands)
      else match rep with
           | Some v => (Returns v, operands)
           | None => (Raises (UnboundLocalError "rep"), operands)
           end
  end.

End Instantiate.

(** ** Textual form of the nodes (CRS) *)

Fixpoint mapM {A B : Type} (f : A -> outcome B) (l : list A) : outcome (list B) :=
  match l with
  | [] => Returns []
  | x :: l' => y <- f x ;; ys <- mapM f l' ;; Returns (y :: ys)
  end.

Section Host.

(** The concrete syntax belongs to classes.py: how each node class lays out
    its own text is a parameter. *)
Variable render_cdataset : pydict string -> string.
Variable render_ctree : string -> string -> list string -> pydict pylit -> string.
Variable render_scriptChild : string -> string -> string.
Variable render_cpage : list Z -> list Z -> list (list string) -> string -> string.

(** Modelled from the spec: the method [buildcrs] of the node classes of
    classes.py, which is not among the sources ([cdummy.buildcrs], lines
    28-29, is).  A node renders its own textual form from the text of each of
    its immediate children, which [child] provides. *)
Definition render_node (child : pyobj -> outcome string) (o : pyobj)
  : outcome string :=
  match o with
  | cdataset kvp => Returns (render_cdataset kvp)
  | cdummy => Returns "ARG"
  | ctree operator script operands parameters =>
      texts <- mapM child operands ;;
      Returns (render_ctree operator script texts parameters)
  | scriptChild father varname =>
      text <- child father ;;
      Returns (render_scriptChild text varname)
  | cpage widths_list heights_list fig_lines orientation =>
      texts <- mapM (mapM child) fig_lines ;;
      Returns (render_cpage widths_list heights_list texts orientation)
  | _ => Raises (AttributeError "buildcrs")
  end.

(** Modelled from the spec: [o.buildcrs()], the textual form of a whole
    expression, each node taking the text of its children from their own
    [buildcrs]. *)
Fixpoint buildcrs (o : pyobj) : outcome string :=
  match o with
  | cdataset kvp => Returns (render_cdataset kvp)
  | cdummy => Returns "ARG"
  | ctree operator script operands parameters =>
      texts <- mapM buildcrs operands ;;
      Returns (render_ctree operator script texts parameters)
  | scriptChild father varname =>
      text <- buildcrs father ;;
      Returns (render_scriptChild text varname)
  | cpage widths_list heights_list fig_lines orientation =>
      texts <- mapM (mapM buildcrs) fig_lines ;;
      Returns (render_cpage widths_list heights_list texts orientation)
  | _ => Raises (AttributeError "buildcrs")
  end.

(** Modelled from the spec: [o.buildcrs(crsrewrite=f)], of classes.py.  The
    node renders its own textual form and invokes the rewriter on each child
    it serializes. *)
Definition buildcrs_crsrewrite (crsrewrite : string -> outcome string)
           (o : pyobj) : outcome string :=
  render_node (fun c => text <- buildcrs c ;; crsrewrite text) o.

(** ** Module state *)

Inductive log_record : Type :=
| info_issue_reading_macro_file (filename : string)
| error_cannot_yet_handle_object (cobj : pyobj).

(** [cmacros] is the dictionary of line 17, [functions] the names that
    [exec defs in globals()] (line 117) has bound in the module, [log] the
    records sent to [clogger] at info and error level, latest last. *)
Record state : Type := mkState {
  cmacros : pydict pyobj;
  functions : list string;
  log : list log_record
}.

Definition logged (r : log_record) (st : state) : state :=
  mkState (cmacros st) (functions st) (log st ++ [r]).

(** [d[k] = v]: an existing key keeps its place, a new one is put last. *)
Fixpoint setitem {V : Type} (d : pydict V) (k : string) (v : V) : pydict V :=
  match d with
  | [] => [(k, v)]
  | (k', v') :: d' =>
      if String.eqb k' k then (k', v) :: d' else (k', v') :: setitem d' k v
  end.

(** ** cmacro (lines 31-120) *)

(** The interpreter and classes.py, as parameters: [eval_crs] is [eval] of a
    CRS text in the namespace of [__main__], where [ARG] has just been bound
    to a [cdummy]; [py_eq] is [==] between objects; [exec_defs name rep] is
    the exception, if any, that the [exec] of the generated [def] raises. *)
Variable eval_crs : string -> outcome pyobj.
Variable py_eq : pyobj -> pyobj -> bool.
Variable exec_defs : string -> pyobj -> option exn.

(** A call with [**d], as in [instantiate]: the fresh dict that lines 99-100 hand to
    the constructor of [ctree]. *)
Variable kwargs : pydict pylit -> pydict pylit.

Definition is_cobject (o : pyobj) : bool :=
  is_cdataset o || is_cdummy o || is_ctree o || is_scriptChild o || is_cpage o.

(** Lines 92-95. *)
Fixpoint domatch_loop (cobj : pyobj) (lobjects : list pyobj) (domatch : bool)
  : outcome bool :=
  match lobjects with
  | [] => Returns domatch
  | o :: lobjects' =>
      d <- (if domatch then Returns true
            else if py_eq cobj o then Returns true
            else if is_cobject cobj then
                   a <- buildcrs cobj ;; b <- buildcrs o ;;
                   Returns (String.eqb a b)
                 else Returns false) ;;
      domatch_loop cobj lobjects' d
  end.

Definition truthy_name (name : option string) : bool :=
  match name with
  | Some s => negb (String.eqb s "")
  | None => false
  end.

(** [name] has been bound, at module level, to a macro function. *)
Definition rebound (st : state) (name : string) : bool :=
  existsb (String.eqb name) (functions st).

(** Lines 112-120, for a [rep] that is an object.  The [exec] of line 117
    binds [name] in the namespace of the module, whatever that name was bound
    to; once a macro has been given the name [cmacros], that global is the
    macro function and no longer the dictionary, and the assignment of line
    113 fails. *)
Definition register (name : option string) (rep : pyobj) (st : state)
  : outcome pyobj * state :=
  match name with
  | Some n =>
      if truthy_name name then
        if rebound st "cmacros" then
          (Raises (TypeError "'function' object does not support item assignment"),
           st)
        else
          let st1 := mkState (setitem (cmacros st) n rep) (functions st) (log st) in
          match exec_defs n rep with
          | Some e => (Raises e, st1)
          | None => (Returns rep,
                     mkState (cmacros st1) (functions st1 ++ [n]) (log st1))
          end
      else (Returns rep, st)
  | None => (Returns rep, st)
  end.

(** [map(cmacro, [None for o in l], l)]: the calls on the children, in order,
    without [lobjects]. *)
Definition map_cmacro (cmacro_None : pyobj -> state -> outcome pyobj * state)
  : list pyobj -> state -> outcome (list pyobj) * state :=
  fix go (l : list pyobj) (st : state) : outcome (list pyobj) * state :=
    match l with
    | [] => (Returns [], st)
    | o :: l' =>
        match cmacro_None o st with
        | (Returns r, st1) =>
            match go l' st1 with
            | (Returns rs, st2) => (Returns (r :: rs), st2)
            | (Raises e, st2) => (Raises e, st2)
            end
        | (Raises e, st1) => (Raises e, st1)
        end
    end.

(** [cmacro] from line 92 on, that is for a [cobj] which is not a [str]. *)
Fixpoint cmacro_object (name : option string) (cobj : pyobj)
         (lobjects : list pyobj) (st : state) {struct cobj}
  : outcome pyobj * state :=
  match domatch_loop cobj lobjects false with
  | Raises e => (Raises e, st)
  | Returns domatch =>
      if is_cdataset cobj || is_cdummy cobj || domatch then (Returns cdummy, st)
      else
        match cobj with
        | ctree operator script operands parameters =>
            match map_cmacro (fun o => cmacro_object None o []) operands st with
            | (Returns ops, st1) =>
                register name (ctree operator script ops (kwargs parameters)) st1
            | (Raises e, st1) => (Raises e, st1)
            end
        | scriptChild father varname =>
            match cmacro_object None father [] st with
            | (Returns f, st1) => register name (scriptChild f varname) st1
            | (Raises e, st1) => (Raises e, st1)
            end
        | cpage widths_list heights_list fig_lines orientation =>
            match
              (fix lines_loop (ls : list (list pyobj)) (st : state)
                 : outcome (list (list pyobj)) * state :=
                 match ls with
                 | [] => (Returns [], st)
                 | line :: ls' =>
                     match map_cmacro (fun o => cmacro_object None o []) line st with
                     | (Returns r, st1) =>
                         match lines_loop ls' st1 with
                         | (Returns rs, st2) => (Returns (r :: rs), st2)
                         | (Raises e, st2) => (Raises e, st2)
                         end
                     | (Raises e, st1) => (Raises e, st1)
                     end
                 end) fig_lines st
            with
            | (Returns lines, st1) =>
                register name (cpage widths_list heights_list lines orientation) st1
            | (Raises e, st1) => (Raises e, st1)
            end
        | PyNone => (Returns PyNone, st)
        | _ =>
            (Returns PyNone, logged (error_cannot_yet_handle_object cobj) st)
        end
  end.

(** The argument [cobj] of [cmacro]: a [str] holding a macro formula, or an
    object. *)
Inductive macro_source : Type :=
| Formula (crs : string)
| Object (o : pyobj).

Definition cmacro (name : option string) (cobj : macro_source)
           (lobjects : list pyobj) (st : state) : outcome pyobj * state :=
  match cobj with
  | Formula crs =>
      match eval_crs crs with
      | Returns o => cmacro_object name o lobjects st
      | Raises e => (Raises e, st)
      end
  | Object o => cmacro_object name o lobjects st
  end.

(** ** read (lines 181-199) *)

(** What [json.load] returns.  The strings of the file come out as
    [unicode] objects, never as [str]; an array or an object inside an array
    or an object is kept as its repr, [read] never looks into it. *)
Inductive json_scalar : Type :=
| JNull
| JBool (b : bool)
| JInt (z : Z)
| JFloat (zero : bool) (repr : string)
| JString (s : string).

Inductive json_item : Type :=
| Scalar (v : json_scalar)
| Nested (repr : string).

Inductive json_document : Type :=
| DScalar (v : json_scalar)
| DArray (items : list json_item)
| DObject (entries : pydict json_item).

(** What [read] finds at the path it opens: no file, a file that cannot be
    opened or read, a content that [json.load] rejects, or a JSON
    document. *)
Inductive macro_file : Type :=
| file_absent
| file_unreadable
| file_malformed
| file_json (document : json_document).

Definition unicode (s : string) : pyobj := PyOther ("u'" ++ s ++ "'")%string.

Definition int_repr (z : Z) : string := NilZero.string_of_int (Z.to_int z).

Definition json_object (j : json_item) : pyobj :=
  match j with
  | Scalar JNull => PyNone
  | Scalar (JBool true) => PyOther "True"
  | Scalar (JBool false) => PyOther "False"
  | Scalar (JInt z) => PyOther (int_repr z)
  | Scalar (JFloat _ r) => PyOther r
  | Scalar (JString s) => unicode s
  | Nested r => PyOther r
  end.

(** Truth value of [macros_texts] at line 196. *)
Definition truthy_document (d : json_document) : bool :=
  match d with
  | DScalar JNull => false
  | DScalar (JBool b) => b
  | DScalar (JInt z) => negb (Z.eqb z 0)
  | DScalar (JFloat zero _) => negb zero
  | DScalar (JString s) => negb (String.eqb s "")
  | DArray items => match items with [] => false | _ :: _ => true end
  | DObject entries => match entries with [] => false | _ :: _ => true end
  end.

(** [l[m]] on a list: [m] has to be an integer (a [bool] is one), counted
    from the end when negative. *)
Definition list_index (m : json_item) : option Z :=
  match m with
  | Scalar (JInt z) => Some z
  | Scalar (JBool b) => Some (if b then 1 else 0)%Z
  | _ => None
  end.

Definition list_getitem {A : Type} (l : list A) (z : Z) : option A :=
  let n := Z.of_nat (List.length l) in
  if (0 <=? z)%Z then nth_error l (Z.to_nat z)
  else if (- n <=? z)%Z then nth_error l (Z.to_nat (n + z))
  else None.

(** The element of an array as the [name] of [cmacro]: truthy unless it is
    0 or [False]. *)
Definition index_name (m : json_item) : option string :=
  match m with
  | Scalar (JInt z) => if Z.eqb z 0 then None else Some (int_repr z)
  | Scalar (JBool true) => Some "True"
  | _ => None
  end.

Variable expanduser : string -> string.

(** The [try] block of lines 188-195: the value bound to [macros_texts]
    ([None] when the block has raised, which the [except] reports). *)
Definition read_macrofile (fs : string -> macro_file) (filename : string)
           (st : state) : option json_document * state :=
  match fs (expanduser filename) with
  | file_json document => (Some document, st)
  | file_absent | file_unreadable | file_malformed =>
      (None, logged (info_issue_reading_macro_file filename) st)
  end.

(** Lines 197-199 when [macros_texts] is a dict: [m] runs over its keys. *)
Fixpoint load_macros (macros_texts keys : pydict json_item) (st : state)
  : outcome unit * state :=
  match keys with
  | [] => (Returns tt, st)
  | (m, _) :: keys' =>
      match getitem macros_texts m with
      | None => (Raises (KeyError m), st)
      | Some text =>
          match cmacro (Some m) (Object (json_object text)) [] st with
          | (Returns _, st1) => load_macros macros_texts keys' st1
          | (Raises e, st1) => (Raises e, st1)
          end
      end
  end.

(** Lines 197-199 when [macros_texts] is a list: [m] runs over its elements,
    and [macros_texts[m]] is an indexing of the list. *)
Fixpoint load_items (macros_texts items : list json_item) (st : state)
  : outcome unit * state :=
  match items with
  | [] => (Returns tt, st)
  | m :: items' =>
      match list_index m with
      | None => (Raises (TypeError "list indices must be integers"), st)
      | Some z =>
          match list_getitem macros_texts z with
          | None => (Raises (IndexError "list index out of range"), st)
          | Some text =>
              match cmacro (index_name m) (Object (json_object text)) [] st with
              | (Returns _, st1) => load_items macros_texts items' st1
              | (Raises e, st1) => (Raises e, st1)
              end
          end
      end
  end.

(** Lines 196-199 are outside the [try]. *)
Definition read (fs : string -> macro_file) (filename : string) (st : state)
  : outcome unit * state :=
  match read_macrofile fs filename st with
  | (Some macros_texts, st1) =>
      if truthy_document macros_texts then
        match macros_texts with
        | DObject entries => load_macros entries entries st1
        | DArray items => load_items items items st1
        | DScalar (JString _) =>
            (Raises (TypeError "string indices must be integers"), st1)
        | DScalar _ => (Raises (TypeError "object is not iterable"), st1)
        end
      else (Returns tt, st1)
  | (None, st1) => (Returns tt, st1)
  end.

(** ** crewrite (lines 123-152) *)

(** [s.replace(",)", ")")] *)
Fixpoint replace_comma_paren (s : string) : string :=
  match s with
  | String "," (String ")" s') => String ")" (replace_comma_paren s')
  | String c s' => String c (replace_comma_paren s')
  | EmptyString => EmptyString
  end.

(** [depth] is the number of nested calls of [crewrite] that the interpreter
    still allows; when none is left the call raises.  The dictionary is only
    read. *)
Fixpoint crewrite (depth : nat) (macros : pydict pyobj) (crs : string)
         (alsoAtTop : bool) {struct depth} : outcome string :=
  match depth with
  | O => Raises RecursionLimit
  | S depth' =>
      co <- eval_crs crs ;;
      if is_ctree co || is_scriptChild co || is_cpage co then
        let rewrite := fun text => crewrite depth' macros text true in
        let dig := buildcrs_crsrewrite rewrite co in
        if alsoAtTop then
          (fix macros_loop (ms : pydict pyobj) : outcome string :=
             match ms with
             | [] => dig
             | (m, _) :: ms' =>
                 match getitem macros m with
                 | None => Raises (KeyError m)
                 | Some macro =>
                     argl <- cmatch macro co ;;
                     match argl with
                     | [] => macros_loop ms'
                     | _ :: _ =>
                         texts <- mapM (fun arg =>
                                          text <- buildcrs_crsrewrite rewrite arg ;;
                                          rewrite text) argl ;;
                         Returns (replace_comma_paren
                                    (m ++ "(" ++
                                     String.concat ""
                                       (map (fun t => t ++ ",") texts)
                                     ++ ")")%string)
                     end
                 end
             end) macros
        else dig
      else Returns crs
  end.

End Host.

(** ** The loops of [cmatch] and [instantiate], named *)

Fixpoint cmatch_operands (mops ops argsub : list pyobj) {struct mops}
  : outcome (list pyobj) :=
  match mops, ops with
  | mop :: mops', op :: ops' =>
      if is_cdummy mop then cmatch_operands mops' ops' (argsub ++ [op])
      else sub <- cmatch mop op ;;
           cmatch_operands mops' ops' (argsub ++ sub)
  | _, _ => Returns argsub
  end.

Section InstantiateOperands.

Variable variable_of : pyobj -> string -> option string.
Variable kwargs : pydict pylit -> pydict pylit.

Fixpoint instantiate_operands (os opers operands : list pyobj) {struct os}
  : outcome (list pyobj) * list pyobj :=
  match os with
  | [] => (Returns opers, operands)
  | o :: os' =>
      match instantiate variable_of kwargs o operands false with
      | (Returns v, operands) => instantiate_operands os' (opers ++ [v]) operands
      | (Raises e, operands) => (Raises e, operands)
      end
  end.

End InstantiateOperands.

(** ** Measures and shapes of templates *)

(** Number of Placeholder leaves, read depth-first, left to right. *)
Fixpoint placeholderCount (t : pyobj) : nat :=
  match t with
  | cdummy => 1
  | ctree _ _ operands _ => list_sum (map placeholderCount operands)
  | scriptChild father _ => placeholderCount father
  | cpage _ _ fig_lines _ =>
      list_sum (map (fun line => list_sum (map placeholderCount line)) fig_lines)
  | _ => 0
  end.

(** Templates made of OperatorNodes and Placeholders only. *)
Fixpoint operator_template (t : pyobj) : bool :=
  match t with
  | cdummy => true
  | ctree _ _ operands _ => forallb operator_template operands
  | _ => false
  end.

(** Templates made of the four kinds of node that [instantiate] has a branch
    for, where every ExtractionNode has a readable attribute [variable]. *)
Fixpoint instantiable (variable_of : pyobj -> string -> option string)
         (t : pyobj) : bool :=
  match t with
  | cdummy => true
  | cdataset _ => true
  | ctree _ _ operands _ => forallb (instantiable variable_of) operands
  | scriptChild father varname =>
      instantiable variable_of father &&
      match variable_of father varname with Some _ => true | None => false end
  | _ => false
  end.

(** The kinds of object for which [instantiate] has no branch. *)
Definition no_branch (mac : pyobj) : bool :=
  negb (is_cdummy mac || is_ctree mac || is_scriptChild mac || is_cdataset mac).

(** The node kinds that [cmacro] abstracts, and [None], which it passes on. *)
Definition handled_by_cmacro (cobj : pyobj) : bool :=
  match cobj with
  | cdataset_class | PyOther _ => false
  | _ => true
  end.

Definition all_of {A : Type} (P : A -> Prop) (l : list A) : Prop :=
  fold_right (fun x rest => P x /\ rest) True l.

(** ** Copies of parameter dicts *)

Section DictCopies.

Variable kwargs : pydict pylit -> pydict pylit.

(** Every parameter dict of [t] comes out of a call with [**] in the
    iteration order that it has (as a dict of at most one key does). *)
Fixpoint keeps_order (t : pyobj) : Prop :=
  match t with
  | ctree _ _ operands parameters =>
      kwargs parameters = parameters /\ all_of keeps_order operands
  | scriptChild father _ => keeps_order father
  | cpage _ _ fig_lines _ => all_of (all_of keeps_order) fig_lines
  | _ => True
  end.

(** [t] once each of its parameter dicts has gone [n] times through a call
    with [**]: the same nodes and the same bindings, the iteration order of
    the dicts being that of the last copy. *)
Fixpoint copied (n : nat) (t : pyobj) : pyobj :=
  match t with
  | ctree operator script operands parameters =>
      ctree operator script (map (copied n) operands)
            (Nat.iter n kwargs parameters)
  | scriptChild father varname => scriptChild (copied n father) varname
  | cpage widths_list heights_list fig_lines orientation =>
      cpage widths_list heights_list (map (map (copied n)) fig_lines)
            orientation
  | _ => t
  end.

End DictCopies.

Section InstantiateShapes.

Variable variable_of : pyobj -> string -> option string.
Variable kwargs : pydict pylit -> pydict pylit.

(** What a call below the top level does on a template that [instantiate]
    covers: it consumes as many operands as the template has Placeholders,
    or runs out of them. *)
Definition consumes (t : pyobj) : Prop :=
  instantiable variable_of t = true ->
  forall operands,
    (placeholderCount t <= List.length operands ->
     exists v, instantiate variable_of kwargs t operands false
               = (Returns v, skipn (placeholderCount t) operands))
    /\ (List.length operands < placeholderCount t ->
        instantiate variable_of kwargs t operands false = (Raises (Climaf_Macro_Error no_operand_left), [])).

(** Matching against what a call of [instantiate] below the top level has
    built gives back the operands that the call has consumed. *)
Definition recaptured (t : pyobj) : Prop :=
  operator_template t = true ->
  keeps_order kwargs t ->
  forall operands v rest,
    instantiate variable_of kwargs t operands false = (Returns v, rest) ->
    exists captured,
      operands = captured ++ rest
      /\ if is_cdummy t then captured = [v] else cmatch t v = Returns captured.

End InstantiateShapes.

(** Source expressions that hold, at the root or below, an object of a kind
    that [cmacro] has no branch for. *)
Fixpoint contains_unsupported (cobj : pyobj) : bool :=
  match cobj with
  | cdataset_class | PyOther _ => true
  | ctree _ _ operands _ => existsb contains_unsupported operands
  | scriptChild father _ => contains_unsupported father
  | cpage _ _ fig_lines _ => existsb (existsb contains_unsupported) fig_lines
  | _ => false
  end.

(** Number of levels of nodes below the root. *)
Fixpoint height (o : pyobj) : nat :=
  match o with
  | ctree _ _ operands _ => S (list_max (map height operands))
  | scriptChild father _ => S (height father)
  | cpage _ _ fig_lines _ =>
      S (list_max (map (fun line => list_max (map height line)) fig_lines))
  | _ => 0
  end.

Section ParseSerialize.

Variable render_cdataset : pydict string -> string.
Variable render_ctree : string -> string -> list string -> pydict pylit -> string.
Variable render_scriptChild : string -> string -> string.
Variable render_cpage : list Z -> list Z -> list (list string) -> string -> string.
Variable eval_crs : string -> outcome pyobj.

(** The contract between the two directions of the CRS notation, on one
    expression: the interpreter reads the text of the expression, and of each
    of its sub-expressions, back into that very expression. *)
Fixpoint round_trips (o : pyobj) : Prop :=
  (forall text,
      buildcrs render_cdataset render_ctree render_scriptChild render_cpage o
      = Returns text ->
      eval_crs text = Returns o)
  /\ match o with
     | ctree _ _ operands _ => all_of round_trips operands
     | scriptChild father _ => round_trips father
     | cpage _ _ fig_lines _ => all_of (all_of round_trips) fig_lines
     | _ => True
     end.

(** The rewriter leaves an expression as it is: on an empty Registry and
    with enough nested calls allowed, rewriting the text of the expression
    returns that text. *)
Definition rewrite_unchanged_on (e : pyobj) : Prop :=
  forall text,
    buildcrs render_cdataset render_ctree render_scriptChild render_cpage e
    = Returns text ->
    round_trips e ->
    forall depth alsoAtTop,
      height e < depth ->
      crewrite render_cdataset render_ctree render_scriptChild render_cpage
               eval_crs depth [] text alsoAtTop
      = Returns text.

End ParseSerialize.

(** ** A host for the examples *)

Module Example.

Definition render_pars (parameters : pydict pylit) : list string :=
  map (fun '(k, v) =>
         (k ++ "=" ++ match v with LInt _ => "<int>" | LStr s => "'" ++ s ++ "'" end)%string)
      parameters.

Definition render_cdataset (kvp : pydict string) : string :=
  ("ds(" ++ String.concat ","
       (map (fun '(k, v) => (k ++ "='" ++ v ++ "'")%string) kvp) ++ ")")%string.

Definition render_ctree (operator script : string) (texts : list string)
           (parameters : pydict pylit) : string :=
  (operator ++ "(" ++ String.concat "," (texts ++ render_pars parameters)%list
     ++ ")")%string.

Definition render_scriptChild (text varname : string) : string :=
  (text ++ "." ++ varname)%string.

Definition render_cpage (widths_list heights_list : list Z)
           (texts : list (list string)) (orientation : string) : string :=
  ("cpage([" ++ String.concat ","
      (map (fun line => ("[" ++ String.concat "," line ++ "]")%string) texts)
     ++ "])")%string.

Definition rst : pyobj := cdataset [("variable", "rst")].
Definition rstcs : pyobj := cdataset [("variable", "rstcs")].
Definition crest : pyobj := ctree "sub" "sub.sh" [rst; rstcs] [].

(** An interpreter that knows the three expressions above and [ARG]. *)
Definition eval_crs (crs : string) : outcome pyobj :=
  if String.eqb crs "ds(variable='rst')" then Returns rst
  else if String.eqb crs "ds(variable='rstcs')" then Returns rstcs
  else if String.eqb crs "sub(ds(variable='rst'),ds(variable='rstcs'))"
       then Returns crest
  else if String.eqb crs "ARG" then Returns cdummy
  else Raises (HostError "invalid syntax").

Definition py_eq (a b : pyobj) : bool := false.

Definition exec_defs (name : string) (rep : pyobj) : option exn := None.

(** A call with [**] that hands over the first two keys in the other
    order, as CPython 2.7 does for the keys [title] and [min]. *)
Definition kwargs (d : pydict pylit) : pydict pylit :=
  match d with
  | (k1, v1) :: (k2, v2) :: rest =>
      if String.eqb k1 k2 then d else (k2, v2) :: (k1, v1) :: rest
  | _ => d
  end.

Definition expanduser (path : string) : string := path.

Definition empty : state := mkState [] [] [].

Definition no_file (path : string) : macro_file := file_absent.

(** A file that holds the JSON text [[5]]. *)
Definition array_file (path : string) : macro_file :=
  file_json (DArray [Scalar (JInt 5)]).

(** A file as [write] leaves it for one macro. *)
Definition crest_file (path : string) : macro_file :=
  file_json (DObject [("crest", Scalar (JString "sub(ARG,ARG)"))]).

End Example.

(** ** The function bound to a macro name *)

(** Line 115-117: [cmacro] binds [name], at module level, to
    a function of any number of arguments [args] that returns
    [instantiate(cmacros[name], [x for x in args])].  The body reads the
    globals [instantiate] and [cmacros] when the function is called: if a
    macro has taken the name [cmacros], the subscript fails; if one has
    taken the name [instantiate], the function that is called is that macro
    function, which calls itself without end.  The list that [instantiate]
    pops from is a fresh one. *)
Definition macro_function (variable_of : pyobj -> string -> option string)
           (kwargs : pydict pylit -> pydict pylit)
           (st : state) (name : string) (args : list pyobj) : outcome pyobj :=
  if rebound st name then
    if rebound st "cmacros" then
      Raises (TypeError "'function' object has no attribute '__getitem__'")
    else
      match getitem (cmacros st) name with
      | Some mac =>
          if rebound st "instantiate" then Raises RecursionLimit
          else fst (instantiate variable_of kwargs mac args true)
      | None => Raises (KeyError name)
      end
  else Raises (NameError name).

(** The names that the module reads at module level or from the builtins:
    a macro function of one of these names replaces what the code of the
    module finds under it. *)
Definition names_in_use : list string :=
  module_names ++
  ["isinstance"; "str"; "eval"; "map"; "zip"; "len"; "file"; "dict";
   "globals"; "Exception"].

(** No macro function has taken a name that the module uses. *)
Definition intact (st : state) : Prop :=
  forall name, In name (functions st) -> ~ In name names_in_use.

(** ** More shapes and measures *)

(** Expressions made of OperatorNodes over datasets and placeholders. *)
Fixpoint operator_expression (e : pyobj) : bool :=
  match e with
  | cdataset _ | cdummy => true
  | ctree _ _ operands _ => forallb operator_expression operands
  | _ => false
  end.

(** The datasets and placeholders of such an expression, depth-first, left
    to right. *)
Fixpoint leaves (e : pyobj) : list pyobj :=
  match e with
  | ctree _ _ operands _ => flat_map leaves operands
  | _ => [e]
  end.

(** The sub-expressions reached from a node through operands of
    OperatorNodes. *)
Fixpoint operand_descendants (e : pyobj) : list pyobj :=
  match e with
  | ctree _ _ operands _ =>
      flat_map (fun o => o :: operand_descendants o) operands
  | _ => []
  end.

(** Templates that are not ExtractionNodes and in which no ExtractionNode is
    reached through operands of OperatorNodes. *)
Fixpoint extraction_free (t : pyobj) : bool :=
  match t with
  | scriptChild _ _ => false
  | ctree _ _ operands _ => forallb extraction_free operands
  | _ => true
  end.

(** Objects that hold a DatasetRef, at the root or below. *)
Fixpoint contains_dataset (o : pyobj) : bool :=
  match o with
  | cdataset _ => true
  | ctree _ _ operands _ => existsb contains_dataset operands
  | scriptChild father _ => contains_dataset father
  | cpage _ _ fig_lines _ => existsb (existsb contains_dataset) fig_lines
  | _ => false
  end.

(** Every name bound to a macro function is a key of the Registry. *)
Definition functions_registered (st : state) : Prop :=
  forall name, In name (functions st) -> getitem (cmacros st) name <> None.

(** ** The loop of [cmacro] over the lines of a page, named *)

Section BuilderLoops.

Variable render_cdataset : pydict string -> string.
Variable render_ctree : string -> string -> list string -> pydict pylit -> string.
Variable render_scriptChild : string -> string -> string.
Variable render_cpage : list Z -> list Z -> list (list string) -> string -> string.
Variable py_eq : pyobj -> pyobj -> bool.
Variable exec_defs : string -> pyobj -> option exn.
Variable kwargs : pydict pylit -> pydict pylit.

Fixpoint cmacro_lines (ls : list (list pyobj)) (st : state)
  : outcome (list (list pyobj)) * state :=
  match ls with
  | [] => (Returns [], st)
  | line :: ls' =>
      match map_cmacro
              (fun o => cmacro_object render_cdataset render_ctree
                          render_scriptChild render_cpage py_eq exec_defs kwargs
                          None o []) line st with
      | (Returns r, st1) =>
          match cmacro_lines ls' st1 with
          | (Returns rs, st2) => (Returns (r :: rs), st2)
          | (Raises e, st2) => (Raises e, st2)
          end
      | (Raises e, st1) => (Raises e, st1)
      end
  end.

(** What an anonymous build without [lobjects] does: it returns, the
    Registry and the bindings of the module are as before, and what it
    returns holds neither a dataset nor an object of an unsupported kind. *)
Definition anonymous_build_returns (cobj : pyobj) : Prop :=
  forall st, exists rep st',
    cmacro_object render_cdataset render_ctree render_scriptChild render_cpage
                  py_eq exec_defs kwargs None cobj [] st = (Returns rep, st')
    /\ cmacros st' = cmacros st
    /\ functions st' = functions st
    /\ contains_dataset rep = false
    /\ contains_unsupported rep = false.

(** The template of an expression whose parameter dicts keep their order
    when copied, and what matching it against the expression gives. *)
Definition rebuilt_template_matches (e : pyobj) : Prop :=
  operator_expression e = true ->
  keeps_order kwargs e ->
  forall st, exists t,
    cmacro_object render_cdataset render_ctree render_scriptChild render_cpage
                  py_eq exec_defs kwargs None e [] st = (Returns t, st)
    /\ if is_ctree e
       then is_cdummy t = false /\ cmatch t e = Returns (leaves e)
       else is_cdummy t = true /\ leaves e = [e].

End BuilderLoops.

(** ** The loop of [crewrite] over the Registry, named *)

Section RewriteLoop.

Variable render_cdataset : pydict string -> string.
Variable render_ctree : string -> string -> list string -> pydict pylit -> string.
Variable render_scriptChild : string -> string -> string.
Variable render_cpage : list Z -> list Z -> list (list string) -> string -> string.
Variable eval_crs : string -> outcome pyobj.
Variable macros : pydict pyobj.
Variable co : pyobj.
Variable rewrite : string -> outcome string.

(** Lines 138-147, on the keys [ms] still to be visited. *)
Fixpoint macros_loop (ms : pydict pyobj) : outcome string :=
  match ms with
  | [] =>
      buildcrs_crsrewrite render_cdataset render_ctree render_scriptChild
                          render_cpage rewrite co
  | (m, _) :: ms' =>
      match getitem macros m with
      | None => Raises (KeyError m)
      | Some macro =>
          argl <- cmatch macro co ;;
          match argl with
          | [] => macros_loop ms'
          | _ :: _ =>
              texts <- mapM (fun arg =>
                               text <- buildcrs_crsrewrite
                                         render_cdataset render_ctree
                                         render_scriptChild render_cpage
                                         rewrite arg ;;
                               rewrite text) argl ;;
              Returns (replace_comma_paren
                         (m ++ "(" ++
                          String.concat "" (map (fun t => t ++ ",") texts)
                          ++ ")")%string)
          end
      end
  end.

(** A Registry none of whose templates can capture anything: they hold no
    Placeholder, they are not ExtractionNodes, and no ExtractionNode is
    reached through their operands. *)
Definition captures_nothing : Prop :=
  forall m t, In (m, t) macros ->
              placeholderCount t = 0 /\ extraction_free t = true.

(** The rewriter leaves an expression as it is, against [macros]. *)
Definition rewrite_unchanged_against (e : pyobj) : Prop :=
  forall text,
    buildcrs render_cdataset render_ctree render_scriptChild render_cpage e
    = Returns text ->
    round_trips render_cdataset render_ctree render_scriptChild render_cpage
                eval_crs e ->
    forall depth alsoAtTop,
      height e < depth ->
      crewrite render_cdataset render_ctree render_scriptChild render_cpage
               eval_crs depth macros text alsoAtTop
      = Returns text.

End RewriteLoop.

(** * Properties *)

(** ** Induction on objects, through the lists of children *)

Section pyobj_induction.

Variable P : pyobj -> Prop.
Hypothesis H_cdataset : forall kvp, P (cdataset kvp).
Hypothesis H_cdummy : P cdummy.
Hypothesis H_ctree : forall operator script operands parameters,
    Forall P operands -> P (ctree operator script operands parameters).
Hypothesis H_scriptChild : forall father varname,
    P father -> P (scriptChild father varname).
Hypothesis H_cpage : forall widths_list heights_list fig_lines orientation,
    Forall (Forall P) fig_lines ->
    P (cpage widths_list heights_list fig_lines orientation).
Hypothesis H_None : P PyNone.
Hypothesis H_class : P cdataset_class.
Hypothesis H_other : forall repr, P (PyOther repr).

Fixpoint pyobj_rect_nested (o : pyobj) : P o :=
  match o with
  | cdataset kvp => H_cdataset kvp
  | cdummy => H_cdummy
  | ctree operator script operands parameters =>
      H_ctree operator script operands parameters
        ((fix all (l : list pyobj) : Forall P l :=
            match l with
            | [] => Forall_nil P
            | x :: l' => Forall_cons x (pyobj_rect_nested x) (all l')
            end) operands)
  | scriptChild father varname =>
      H_scriptChild father varname (pyobj_rect_nested father)
  | cpage widths_list heights_list fig_lines orientation =>
      H_cpage widths_list heights_list fig_lines orientation
        ((fix lines (ls : list (list pyobj)) : Forall (Forall P) ls :=
            match ls with
            | [] => Forall_nil (Forall P)
            | line :: ls' =>
                Forall_cons line
                  ((fix all (l : list pyobj) : Forall P l :=
                      match l with
                      | [] => Forall_nil P
                      | x :: l' => Forall_cons x (pyobj_rect_nested x) (all l')
                      end) line)
                  (lines ls')
            end) fig_lines)
  | PyNone => H_None
  | cdataset_class => H_class
  | PyOther repr => H_other repr
  end.

End pyobj_induction.

(** ** Unfolding equations *)

Lemma cmatch_ctree_ctree moperator mscript moperands mparameters
      operator script operands parameters :
  cmatch (ctree moperator mscript moperands mparameters)
         (ctree operator script operands parameters) =
  if String.eqb moperator operator then
    nok <- parameters_nok mparameters parameters mparameters parameters false ;;
    if (nok : bool) then Returns [] else cmatch_operands moperands operands []
  else Returns [].
Proof. reflexivity. Qed.

Lemma instantiate_ctree variable_of kwargs operator script moperands parameters
      operands toplevel :
  instantiate variable_of kwargs (ctree operator script moperands parameters)
              operands toplevel =
  match instantiate_operands variable_of kwargs moperands [] operands with
  | (Returns opers, operands') =>
      if toplevel && negb (Nat.eqb (List.length operands') 0)
      then (Raises (Climaf_Macro_Error (too_many_operands operands')), operands')
      else (Returns (ctree operator script opers (kwargs parameters)), operands')
  | (Raises e, operands') => (Raises e, operands')
  end.
Proof.
  cbn [instantiate].
  change ((fix operands_loop (os opers operands0 : list pyobj) {struct os}
             : outcome (list pyobj) * list pyobj :=
             match os with
             | [] => (Returns opers, operands0)
             | o :: os' =>
                 match instantiate variable_of kwargs o operands0 false with
                 | (Returns v, operands1) => operands_loop os' (opers ++ [v]) operands1
                 | (Raises e, operands1) => (Raises e, operands1)
                 end
             end) moperands [] operands)
    with (instantiate_operands variable_of kwargs moperands [] operands).
  destruct (instantiate_operands variable_of kwargs moperands [] operands) as [[opers|e] rest];
    reflexivity.
Qed.

(** ** The matcher *)

(** C6. Capture order is depth-first, left to right: matching the template
    op(ARG, op2(ARG, ARG)) against the candidate op(d1, op2(d2, d3)) returns
    exactly the capture list [d1, d2, d3], whatever the operator names, the
    scripts and the three sub-expressions are. *)
Theorem cmatch_depth_first_capture_order
        (op op2 s1 s2 s3 s4 : string) (d1 d2 d3 : pyobj) :
  cmatch (ctree op s1 [cdummy; ctree op2 s2 [cdummy; cdummy] []] [])
         (ctree op s3 [d1; ctree op2 s4 [d2; d3] []] [])
  = Returns [d1; d2; d3].
Proof.
  rewrite cmatch_ctree_ctree, String.eqb_refl.
  cbn [parameters_nok bind cmatch_operands is_cdummy app].
  rewrite cmatch_ctree_ctree, String.eqb_refl.
  reflexivity.
Qed.

(** C2. On two ExtractionNodes with equal variable names the matcher does not
    recurse into the parents: line 177 names [argslist], which is bound
    nowhere, and the call raises NameError. *)
Theorem cmatch_scriptChild_raises_NameError
        (mfather father : pyobj) (varname : string) :
  cmatch (scriptChild mfather varname) (scriptChild father varname)
  = Raises (NameError "argslist").
Proof.
  cbn [cmatch]. rewrite String.eqb_refl. reflexivity.
Qed.

(** C3. A parameter that the candidate has and the template has not goes
    unnoticed: [zip] stops at the shorter of the two key sequences, here the
    empty one, and the two OperatorNodes match. *)
Theorem cmatch_misses_extra_parameter
        (op s1 s2 key : string) (value : pylit) (d : pyobj) :
  cmatch (ctree op s1 [cdummy] [])
         (ctree op s2 [d] [(key, value)])
  = Returns [d].
Proof.
  rewrite cmatch_ctree_ctree, String.eqb_refl. reflexivity.
Qed.

(** ** The instantiator *)

Section InstantiateFacts.

Variable variable_of : pyobj -> string -> option string.
Variable kwargs : pydict pylit -> pydict pylit.

Lemma instantiate_no_branch mac operands toplevel :
  no_branch mac = true ->
  instantiate variable_of kwargs mac operands toplevel =
  if toplevel && negb (Nat.eqb (List.length operands) 0)
  then (Raises (Climaf_Macro_Error (too_many_operands operands)), operands)
  else (Raises (UnboundLocalError "rep"), operands).
Proof.
  destruct mac; cbn [no_branch is_cdummy is_ctree is_scriptChild is_cdataset
                     orb negb]; intro H; try discriminate H; reflexivity.
Qed.

End InstantiateFacts.

(** C4. A DatasetRef leaf of a template is not passed through: line 251
    binds [rep] to the class [cdataset], and that class object, which is not
    the leaf, is what the call returns, at top level and below an
    OperatorNode alike. *)
Theorem instantiate_cdataset_returns_class
        (variable_of : pyobj -> string -> option string)
        (kwargs : pydict pylit -> pydict pylit)
        (kvp : pydict string) (op script : string) (pars : pydict pylit) :
  instantiate variable_of kwargs (cdataset kvp) [] true
  = (Returns cdataset_class, [])
  /\ instantiate variable_of kwargs (ctree op script [cdataset kvp] pars) [] true
     = (Returns (ctree op script [cdataset_class] (kwargs pars)), [])
  /\ cdataset_class <> cdataset kvp.
Proof.
  repeat split; discriminate.
Qed.

(** C10, as the claim states it, fails: a CompositeNode given to the
    top-level call along with one operand raises the excess-operands error
    at line 253, before the [return] of line 254 is reached. *)
Lemma instantiate_cpage_excess_counterexample :
  ~ (forall (mac : pyobj) (operands : list pyobj) (toplevel : bool),
        no_branch mac = true ->
        fst (instantiate (fun _ v => Some v) Example.kwargs mac operands toplevel)
        = Raises (UnboundLocalError "rep")).
Proof.
  intro H.
  specialize (H (cpage [] [] [[cdummy]] "") [cdataset []] true eq_refl).
  discriminate H.
Qed.

(** C10, amended. For every object that is none of Placeholder,
    OperatorNode, ExtractionNode and DatasetRef (a CompositeNode among them),
    [instantiate] binds [rep] in no branch; a call that is not at top level,
    or that has no operand left, fails at its [return] with
    UnboundLocalError, and the operands are left as they were; a top-level
    call with operands left raises the excess-operands error first. *)
Theorem instantiate_no_branch_unbound
        (variable_of : pyobj -> string -> option string)
        (kwargs : pydict pylit -> pydict pylit)
        (mac : pyobj) (operands : list pyobj) :
  no_branch mac = true ->
  instantiate variable_of kwargs mac operands false
  = (Raises (UnboundLocalError "rep"), operands)
  /\ instantiate variable_of kwargs mac [] true = (Raises (UnboundLocalError "rep"), [])
  /\ (operands <> [] ->
      instantiate variable_of kwargs mac operands true
      = (Raises (Climaf_Macro_Error (too_many_operands operands)), operands)).
Proof.
  intro H. repeat split.
  - now rewrite instantiate_no_branch.
  - now rewrite instantiate_no_branch.
  - intro Hne. rewrite instantiate_no_branch by assumption.
    destruct operands; [congruence | reflexivity].
Qed.

Lemma instantiate_no_branch_unbound_witness :
  no_branch (cpage [] [] [[cdummy]] "") = true
  /\ instantiate (fun _ _ => None) Example.kwargs (cpage [] [] [[cdummy]] "") [PyNone] false
     = (Raises (UnboundLocalError "rep"), [PyNone]).
Proof.
  split; [reflexivity |].
  exact (proj1 (instantiate_no_branch_unbound (fun _ _ => None) Example.kwargs
                  (cpage [] [] [[cdummy]] "") [PyNone] eq_refl)).
Defined.

Section InstantiateArity.

Variable variable_of : pyobj -> string -> option string.
Variable kwargs : pydict pylit -> pydict pylit.


Lemma instantiate_operands_consumes os :
  Forall (consumes variable_of kwargs) os ->
  forallb (instantiable variable_of) os = true ->
  forall opers operands,
    (list_sum (map placeholderCount os) <= List.length operands ->
     exists vs, instantiate_operands variable_of kwargs os opers operands
                = (Returns (opers ++ vs),
                   skipn (list_sum (map placeholderCount os)) operands))
    /\ (List.length operands < list_sum (map placeholderCount os) ->
        instantiate_operands variable_of kwargs os opers operands = (Raises (Climaf_Macro_Error no_operand_left), [])).
Proof.
  induction 1 as [|o os Ho _ IH]; intros Hall opers operands.
  - cbn. split; [|lia]. intros _. exists []. now rewrite app_nil_r.
  - cbn [forallb] in Hall. apply andb_prop in Hall as [Hi Hrest].
    cbn [map instantiate_operands].
    change (list_sum (placeholderCount o :: map placeholderCount os))
      with (placeholderCount o + list_sum (map placeholderCount os)).
    destruct (Ho Hi operands) as [Hge Hlt].
    destruct (Nat.le_gt_cases (placeholderCount o) (List.length operands)) as [Hle|Hgt].
    + destruct (Hge Hle) as [v Hv]. rewrite Hv.
      destruct (IH Hrest (opers ++ [v]) (skipn (placeholderCount o) operands))
        as [IHge IHlt].
      rewrite length_skipn in IHge, IHlt.
      split; intro Hn.
      * destruct IHge as [vs Hvs]; [lia|]. exists (v :: vs).
        rewrite Hvs, skipn_skipn, <- app_assoc. cbn [app].
        now rewrite (Nat.add_comm (placeholderCount o)).
      * apply IHlt. lia.
    + rewrite (Hlt Hgt). split; intro; [lia | reflexivity].
Qed.

Lemma instantiate_consumes t : consumes variable_of kwargs t.
Proof.
  induction t using pyobj_rect_nested; unfold consumes;
    cbn [instantiable]; intros Hi ops; try discriminate Hi.
  - cbn. split; [|lia]. intros _. now exists cdataset_class.
  - destruct ops as [|x rest]; cbn; split; intro; try lia; eauto.
  - rewrite instantiate_ctree. cbn [andb placeholderCount].
    destruct (instantiate_operands_consumes operands H Hi [] ops) as [Hge Hlt].
    split; intro Hn.
    + destruct (Hge Hn) as [vs ->]. eauto.
    + now rewrite (Hlt Hn).
  - apply andb_prop in Hi as [Hf Hv].
    cbn [placeholderCount].
    destruct (IHt Hf ops) as [Hge Hlt].
    destruct (variable_of t varname) as [variable|] eqn:Evar; [|discriminate Hv].
    split; intro Hn.
    + destruct (Hge Hn) as [v Hv']. cbn [instantiate]. rewrite Hv', Evar.
      cbn. eauto.
    + cbn [instantiate]. rewrite (Hlt Hn). reflexivity.
Qed.

(** The check of line 252 is the only difference between a top-level call
    and a call below it. *)
Lemma instantiate_toplevel t operands :
  no_branch t = false ->
  instantiate variable_of kwargs t operands true =
  match instantiate variable_of kwargs t operands false with
  | (Returns v, rest) =>
      if negb (Nat.eqb (List.length rest) 0)
      then (Raises (Climaf_Macro_Error (too_many_operands rest)), rest)
      else (Returns v, rest)
  | (Raises e, rest) => (Raises e, rest)
  end.
Proof.
  destruct t; cbn [no_branch is_cdummy is_ctree is_scriptChild is_cdataset
                   orb negb]; intro H; try discriminate H.
  - reflexivity.
  - destruct operands; reflexivity.
  - rewrite !instantiate_ctree.
    destruct (instantiate_operands variable_of kwargs operands0 [] operands)
      as [[opers|e] rest]; reflexivity.
  - cbn [instantiate].
    destruct (instantiate variable_of kwargs t operands false) as [[f|e] rest]; [|reflexivity].
    destruct (variable_of t varname); reflexivity.
Qed.

Lemma instantiable_has_branch t :
  instantiable variable_of t = true -> no_branch t = false.
Proof. destruct t; cbn; intro H; try discriminate H; reflexivity. Qed.

End InstantiateArity.

(** C5. [instantiate] has no branch for a CompositeNode, a kind of node
    that [cmacro] builds templates of (lines 104-107): on the page below,
    which holds a Placeholder, the call without operands does not raise the
    insufficient-operands error but fails at [return(rep)] with
    UnboundLocalError, and so does, below an OperatorNode, the call with more
    operands than the template has Placeholders, which leaves them in the
    list instead of raising the excess-operands error. *)
Theorem instantiate_cpage_template_unbound
        (variable_of : pyobj -> string -> option string)
        (kwargs : pydict pylit -> pydict pylit)
        (widths heights : list Z) (orientation op script : string)
        (pars : pydict pylit) (d1 d2 : pyobj) :
  placeholderCount (cpage widths heights [[cdummy]] orientation) = 1
  /\ instantiate variable_of kwargs
       (cpage widths heights [[cdummy]] orientation) [] true
     = (Raises (UnboundLocalError "rep"), [])
  /\ instantiate variable_of kwargs
       (ctree op script [cpage widths heights [[cdummy]] orientation] pars)
       [d1; d2] true
     = (Raises (UnboundLocalError "rep"), [d1; d2]).
Proof.
  repeat split.
Qed.

(** X17. Arity errors on the templates that [instantiate] covers.  For
    every template made of Placeholders, OperatorNodes, DatasetRefs and
    ExtractionNodes whose attribute [variable] can be read:
    with at least one Placeholder, instantiating it with the empty list
    raises the insufficient-operands error; with more operands than
    Placeholders, the top-level call raises the excess-operands error, which
    carries the operands left over, while the same call below the top level
    returns and leaves those operands in the list. *)
Theorem instantiate_arity_errors
        (variable_of : pyobj -> string -> option string)
        (kwargs : pydict pylit -> pydict pylit) (t : pyobj) :
  instantiable variable_of t = true ->
  (1 <= placeholderCount t ->
   fst (instantiate variable_of kwargs t [] true)
   = Raises (Climaf_Macro_Error no_operand_left))
  /\ (forall operands,
         placeholderCount t < List.length operands ->
         fst (instantiate variable_of kwargs t operands true)
         = Raises (Climaf_Macro_Error
                     (too_many_operands (skipn (placeholderCount t) operands)))
         /\ exists v, instantiate variable_of kwargs t operands false
                      = (Returns v, skipn (placeholderCount t) operands)).
Proof.
  intro Hi. split.
  - intro Hn.
    rewrite instantiate_toplevel
      by (apply (instantiable_has_branch variable_of); assumption).
    destruct (instantiate_consumes variable_of kwargs t Hi []) as [_ Hlt].
    rewrite Hlt by (cbn; lia). reflexivity.
  - intros operands Hn.
    destruct (instantiate_consumes variable_of kwargs t Hi operands) as [Hge _].
    destruct Hge as [v Hv]; [lia|].
    split; [|now exists v].
    rewrite instantiate_toplevel
      by (apply (instantiable_has_branch variable_of); assumption).
    rewrite Hv.
    assert (Hlen : List.length (skipn (placeholderCount t) operands) <> 0)
      by (rewrite length_skipn; lia).
    apply Nat.eqb_neq in Hlen. rewrite Hlen. reflexivity.
Qed.

Lemma instantiate_arity_errors_witness :
  instantiable (fun _ v => Some v)
    (ctree "sub" "sub.sh" [cdummy; scriptChild cdummy "out"] []) = true
  /\ fst (instantiate (fun _ v => Some v) Example.kwargs
            (ctree "sub" "sub.sh" [cdummy; scriptChild cdummy "out"] [])
            [] true)
     = Raises (Climaf_Macro_Error no_operand_left).
Proof.
  split; [reflexivity |].
  exact (proj1 (instantiate_arity_errors (fun _ v => Some v) Example.kwargs
                  (ctree "sub" "sub.sh" [cdummy; scriptChild cdummy "out"] [])
                  eq_refl) (le_S 1 1 (le_n 1))).
Defined.

(** ** Matching an instance of a template *)

Lemma pylit_eqb_refl v : pylit_eqb v v = true.
Proof. destruct v; cbn; [apply Z.eqb_refl | apply String.eqb_refl]. Qed.

Lemma getitem_In {V : Type} (d : pydict V) k v :
  In (k, v) d -> getitem d k <> None.
Proof.
  induction d as [|[k' v'] d IH]; cbn; [tauto|].
  intros [E|Hin].
  - inversion E; subst. now rewrite String.eqb_refl.
  - destruct (String.eqb k' k); [discriminate | auto].
Qed.

(** A parameter mapping compared with itself shows no mismatch. *)
Lemma parameters_nok_same full pars nok :
  incl pars full ->
  parameters_nok full full pars pars nok = Returns nok.
Proof.
  revert nok. induction pars as [|[k v] pars IH]; intros nok Hincl;
    [reflexivity|].
  cbn [parameters_nok]. rewrite String.eqb_refl. cbn [negb].
  assert (Hk : getitem full k <> None)
    by (apply (getitem_In full k v), Hincl; now left).
  destruct (getitem full k) as [x|]; [|congruence].
  rewrite pylit_eqb_refl. cbn [negb bind].
  apply IH. intros p Hp. apply Hincl. now right.
Qed.

Section MatchInstance.

Variable variable_of : pyobj -> string -> option string.
Variable kwargs : pydict pylit -> pydict pylit.

Lemma instantiate_operands_recaptured os :
  Forall (recaptured variable_of kwargs) os ->
  forallb operator_template os = true ->
  all_of (keeps_order kwargs) os ->
  forall opers operands res rest,
    instantiate_operands variable_of kwargs os opers operands = (Returns res, rest) ->
    exists vs captured,
      res = opers ++ vs
      /\ operands = captured ++ rest
      /\ forall argsub, cmatch_operands os vs argsub = Returns (argsub ++ captured).
Proof.
  induction 1 as [|o os Ho _ IH]; intros Hall Hkeep opers operands res rest Hrun.
  - cbn in Hrun. inversion Hrun; subst. exists [], []. cbn.
    repeat split; intros; now rewrite app_nil_r.
  - cbn [forallb] in Hall. apply andb_prop in Hall as [Ht Hrest].
    destruct Hkeep as [Hko Hkos].
    cbn [instantiate_operands] in Hrun.
    destruct (instantiate variable_of kwargs o operands false) as [[v|e] mid] eqn:Eo;
      [|discriminate Hrun].
    destruct (Ho Ht Hko operands v mid Eo) as (c0 & Hops & Hc0).
    destruct (IH Hrest Hkos _ _ _ _ Hrun) as (vs & c1 & Hres & Hmid & Hloop).
    exists (v :: vs), (c0 ++ c1). repeat split.
    + now rewrite Hres, <- app_assoc.
    + now rewrite Hops, Hmid, app_assoc.
    + intro argsub. cbn [cmatch_operands].
      destruct (is_cdummy o).
      * subst c0. rewrite Hloop. now rewrite <- !app_assoc.
      * rewrite Hc0. cbn [bind]. rewrite Hloop. now rewrite app_assoc.
Qed.

Lemma instantiate_recaptured t : recaptured variable_of kwargs t.
Proof.
  induction t using pyobj_rect_nested; unfold recaptured;
    cbn [operator_template keeps_order]; intros Ht Hkeep ops v rest Hrun;
    try discriminate Ht.
  - destruct ops as [|x ops]; cbn in Hrun; inversion Hrun; subst.
    exists [v]. now cbn.
  - destruct Hkeep as [Hpars Hkeep].
    rewrite instantiate_ctree, Hpars in Hrun. cbn [andb] in Hrun.
    destruct (instantiate_operands variable_of kwargs operands [] ops)
      as [[opers|e] rest'] eqn:Eloop; inversion Hrun; subst.
    destruct (instantiate_operands_recaptured operands H Ht Hkeep _ _ _ _ Eloop)
      as (vs & captured & Hres & Hops & Hloop).
    cbn [app] in Hres. subst opers.
    exists captured. split; [assumption|]. cbn [is_cdummy].
    rewrite cmatch_ctree_ctree, String.eqb_refl.
    rewrite parameters_nok_same by apply incl_refl.
    cbn [bind]. now rewrite Hloop.
Qed.

Lemma operator_template_has_branch t :
  operator_template t = true -> no_branch t = false.
Proof. destruct t; cbn; intro H; try discriminate H; reflexivity. Qed.

End MatchInstance.

(** C1, as the claim states it, fails: a sub-match that fails returns the
    empty list, which the loop of lines 169-173 concatenates like any other;
    below, op2(ARG) does not match op3(d2), the match of the whole still
    returns the non-empty list [d1], and instantiating the template with it
    runs out of operands. *)
Lemma cmatch_instantiate_counterexample :
  ~ (forall (T C : pyobj) (A : list pyobj),
        cmatch T C = Returns A ->
        A <> [] ->
        fst (instantiate (fun _ v => Some v) Example.kwargs T A true) = Returns C).
Proof.
  intro H.
  specialize (H (ctree "op" "op.sh" [cdummy; ctree "op2" "op2.sh" [cdummy] []] [])
                (ctree "op" "op.sh"
                       [cdataset [("variable", "rst")];
                        ctree "op3" "op3.sh" [cdataset [("variable", "rstcs")]] []]
                       [])
                [cdataset [("variable", "rst")]]
                eq_refl).
  cbn in H. assert (Hd : [cdataset [("variable", "rst")]] <> []) by discriminate.
  specialize (H Hd). discriminate H.
Qed.

(** Likewise when the candidate has more operands than the template: [zip]
    drops d2, and instantiating with the captures gives op(d1). *)
Example cmatch_drops_trailing_operand :
  cmatch (ctree "op" "op.sh" [cdummy] [])
         (ctree "op" "op.sh" [Example.rst; Example.rstcs] [])
  = Returns [Example.rst]
  /\ instantiate (fun _ v => Some v) Example.kwargs (ctree "op" "op.sh" [cdummy] [])
                 [Example.rst] true
     = (Returns (ctree "op" "op.sh" [Example.rst] []), []).
Proof. split; reflexivity. Qed.

(** The match can also fail on an instance of the template: the call with
    [**] of line 246 may hand the parameters over in another iteration
    order, which the [zip] of line 163 takes for a mismatch.  Here the copy
    swaps [title] and [min], the inner node of the instance does not match,
    and the captures are [rst] alone. *)
Example cmatch_instance_with_swapped_parameters :
  instantiate (fun _ v => Some v) Example.kwargs
    (ctree "op" "op.sh"
       [cdummy;
        ctree "plot" "plot.sh" [cdummy]
              [("title", LStr "t"); ("min", LInt 0)]] [])
    [Example.rst; Example.rstcs] true
  = (Returns
       (ctree "op" "op.sh"
          [Example.rst;
           ctree "plot" "plot.sh" [Example.rstcs]
                 [("min", LInt 0); ("title", LStr "t")]] []), [])
  /\ cmatch
       (ctree "op" "op.sh"
          [cdummy;
           ctree "plot" "plot.sh" [cdummy]
                 [("title", LStr "t"); ("min", LInt 0)]] [])
       (ctree "op" "op.sh"
          [Example.rst;
           ctree "plot" "plot.sh" [Example.rstcs]
                 [("min", LInt 0); ("title", LStr "t")]] [])
     = Returns [Example.rst].
Proof. split; reflexivity. Qed.

(** A copy that hands over the same items keeps the order of a dict of at
    most one key. *)
Lemma single_key_keeps_order (kwargs : pydict pylit -> pydict pylit)
      (d : pydict pylit) :
  (forall d', Permutation d' (kwargs d')) ->
  List.length d <= 1 ->
  kwargs d = d.
Proof.
  intros Hperm Hlen. specialize (Hperm d).
  destruct d as [|x [|y d]]; cbn in Hlen; try lia.
  - now apply Permutation_nil in Hperm.
  - now apply Permutation_length_1_inv in Hperm.
Qed.

(** C1, amended. For every template T made of OperatorNodes and Placeholders
    only, whose parameter dicts come out of the call with [**] of line 246
    in the iteration order that they have (as dicts of at most one key do),
    and every candidate C that is an instance of T, that is the expression
    that [instantiate] builds from T and some operand list R: whenever
    [cmatch] returns a non-empty capture list A for T and C, A is R, and
    instantiating T with (a copy of) A builds C again and leaves no
    operand. *)
Theorem cmatch_instantiate_inverse
        (variable_of : pyobj -> string -> option string)
        (kwargs : pydict pylit -> pydict pylit)
        (T C : pyobj) (R A : list pyobj) :
  operator_template T = true ->
  keeps_order kwargs T ->
  fst (instantiate variable_of kwargs T R true) = Returns C ->
  cmatch T C = Returns A ->
  A <> [] ->
  A = R /\ instantiate variable_of kwargs T A true = (Returns C, []).
Proof.
  intros Ht Hkeep Hinst Hmatch Hne.
  pose proof (operator_template_has_branch T Ht) as Hb.
  pose proof (instantiate_toplevel variable_of kwargs T R Hb) as Htop.
  destruct (instantiate variable_of kwargs T R false) as [[v|e] rest] eqn:Elow.
  - destruct rest as [|r rest].
    + cbn in Htop. rewrite Htop in Hinst. cbn in Hinst.
      inversion Hinst; subst v.
      destruct (instantiate_recaptured variable_of kwargs T Ht Hkeep R C [] Elow)
        as (captured & HR & Hc).
      rewrite app_nil_r in HR. subst captured.
      destruct (is_cdummy T) eqn:Ed.
      * destruct T; try discriminate Ed. cbn in Hmatch.
        inversion Hmatch; subst. congruence.
      * rewrite Hc in Hmatch. inversion Hmatch; subst A.
        split; [reflexivity | exact Htop].
    + cbn in Htop. rewrite Htop in Hinst. discriminate Hinst.
  - rewrite Htop in Hinst. discriminate Hinst.
Qed.

Lemma cmatch_instantiate_inverse_witness :
  operator_template
    (ctree "sub" "sub.sh" [cdummy; ctree "neg" "neg.sh" [cdummy] []]
           [("factor", LInt 2)]) = true
  /\ keeps_order Example.kwargs
       (ctree "sub" "sub.sh" [cdummy; ctree "neg" "neg.sh" [cdummy] []]
              [("factor", LInt 2)])
  /\ instantiate (fun _ v => Some v) Example.kwargs
       (ctree "sub" "sub.sh" [cdummy; ctree "neg" "neg.sh" [cdummy] []]
              [("factor", LInt 2)])
       [cdataset [("variable", "rst")]; cdataset [("variable", "rstcs")]] true
     = (Returns
          (ctree "sub" "sub.sh"
                 [cdataset [("variable", "rst")];
                  ctree "neg" "neg.sh" [cdataset [("variable", "rstcs")]] []]
                 [("factor", LInt 2)]), []).
Proof.
  assert (Hkeep : keeps_order Example.kwargs
                    (ctree "sub" "sub.sh"
                           [cdummy; ctree "neg" "neg.sh" [cdummy] []]
                           [("factor", LInt 2)])).
  { cbn. repeat split. }
  split; [reflexivity |]. split; [exact Hkeep |].
  refine (proj2 (cmatch_instantiate_inverse (fun _ v => Some v) Example.kwargs
                   (ctree "sub" "sub.sh" [cdummy; ctree "neg" "neg.sh" [cdummy] []]
                          [("factor", LInt 2)])
                   (ctree "sub" "sub.sh"
                          [cdataset [("variable", "rst")];
                           ctree "neg" "neg.sh"
                                 [cdataset [("variable", "rstcs")]] []]
                          [("factor", LInt 2)])
                   [cdataset [("variable", "rst")]; cdataset [("variable", "rstcs")]]
                   [cdataset [("variable", "rst")]; cdataset [("variable", "rstcs")]]
                   eq_refl Hkeep eq_refl eq_refl _)).
  discriminate.
Defined.

(** ** The macro builder *)

Section BuilderFacts.

Variable render_cdataset : pydict string -> string.
Variable render_ctree : string -> string -> list string -> pydict pylit -> string.
Variable render_scriptChild : string -> string -> string.
Variable render_cpage : list Z -> list Z -> list (list string) -> string -> string.
Variable eval_crs : string -> outcome pyobj.
Variable py_eq : pyobj -> pyobj -> bool.
Variable exec_defs : string -> pyobj -> option exn.
Variable kwargs : pydict pylit -> pydict pylit.

Lemma unhandled_not_cobject cobj :
  handled_by_cmacro cobj = false -> is_cobject cobj = false.
Proof. destruct cobj; cbn; intro H; try discriminate H; reflexivity. Qed.

(** An object that is not a node and equals none of [lobjects] leaves
    [domatch] false: its [buildcrs] is never called. *)
Lemma domatch_loop_not_cobject cobj lobjects :
  is_cobject cobj = false ->
  forallb (fun o => negb (py_eq cobj o)) lobjects = true ->
  domatch_loop render_cdataset render_ctree render_scriptChild render_cpage
               py_eq cobj lobjects false = Returns false.
Proof.
  intros Hc. induction lobjects as [|o l IH]; cbn [forallb domatch_loop];
    intro Hall; [reflexivity|].
  apply andb_prop in Hall as [Ho Hl].
  apply negb_true_iff in Ho. rewrite Ho, Hc. cbn [bind]. now apply IH.
Qed.

End BuilderFacts.


(** What the build of the counterexample leaves behind. *)
Example cmacro_unsupported_operand_registered :
  cmacro Example.render_cdataset Example.render_ctree
         Example.render_scriptChild Example.render_cpage
         Example.eval_crs Example.py_eq Example.exec_defs Example.kwargs
         (Some "m") (Object (ctree "plot" "plot.sh" [PyOther "42"] [])) []
         Example.empty
  = (Returns (ctree "plot" "plot.sh" [PyNone] []),
     mkState [("m", ctree "plot" "plot.sh" [PyNone] [])] ["m"]
             [error_cannot_yet_handle_object (PyOther "42")]).
Proof. reflexivity. Qed.



(** ** The registry store *)

(** C7. [read] does raise past its caller on a file whose content is
    corrupt in that [json.load] accepts it without its being the mapping
    that [write] produces: lines 196-199 are outside the [try].  On the JSON
    text [[5]], [macros_texts] is the list [[5]], [m] is 5, and the
    subscript [macros_texts[m]] of line 199 raises IndexError. *)
Theorem read_raises_on_json_array
        (render_cdataset : pydict string -> string)
        (render_ctree : string -> string -> list string -> pydict pylit -> string)
        (render_scriptChild : string -> string -> string)
        (render_cpage : list Z -> list Z -> list (list string) -> string -> string)
        (eval_crs : string -> outcome pyobj)
        (py_eq : pyobj -> pyobj -> bool)
        (exec_defs : string -> pyobj -> option exn)
        (kwargs : pydict pylit -> pydict pylit)
        (expanduser : string -> string)
        (filename : string) (st : state) :
  read render_cdataset render_ctree render_scriptChild render_cpage
       eval_crs py_eq exec_defs kwargs expanduser
       (fun _ => file_json (DArray [Scalar (JInt 5)])) filename st
  = (Raises (IndexError "list index out of range"), st).
Proof.
  unfold read, read_macrofile. cbn [truthy_document load_items list_index].
  reflexivity.
Qed.

(** ** The rewriter, on an empty Registry *)

Section RewriteEmpty.

Variable render_cdataset : pydict string -> string.
Variable render_ctree : string -> string -> list string -> pydict pylit -> string.
Variable render_scriptChild : string -> string -> string.
Variable render_cpage : list Z -> list Z -> list (list string) -> string -> string.
Variable eval_crs : string -> outcome pyobj.

Local Notation "'text_of'" :=
  (buildcrs render_cdataset render_ctree render_scriptChild render_cpage).
Local Notation "'rewrite_at'" :=
  (crewrite render_cdataset render_ctree render_scriptChild render_cpage
            eval_crs).
Local Notation "'parses_back'" :=
  (round_trips render_cdataset render_ctree render_scriptChild render_cpage
               eval_crs).
Local Notation "'unchanged'" :=
  (rewrite_unchanged_on render_cdataset render_ctree render_scriptChild
                        render_cpage eval_crs).

Lemma list_max_cons a l : list_max (a :: l) = Nat.max a (list_max l).
Proof. reflexivity. Qed.

Lemma rewrite_children_unchanged l depth :
  Forall unchanged l ->
  all_of parses_back l ->
  list_max (map height l) < depth ->
  forall texts,
    mapM text_of l = Returns texts ->
    mapM (fun c => text <- text_of c ;; rewrite_at depth [] text true) l
    = Returns texts.
Proof.
  induction 1 as [|x l Hx _ IH]; intros Hrt Hh texts Htexts.
  - exact Htexts.
  - cbn [map] in Hh. rewrite list_max_cons in Hh.
    destruct Hrt as [Hrx Hrl].
    cbn [mapM] in Htexts |- *.
    destruct (text_of x) as [tx|e] eqn:Ex; [|discriminate Htexts].
    cbn [bind] in Htexts |- *.
    rewrite (Hx tx Ex Hrx depth true) by lia. cbn [bind].
    destruct (mapM text_of l) as [tl|e] eqn:El; [|discriminate Htexts].
    rewrite (IH Hrl ltac:(lia) tl eq_refl). exact Htexts.
Qed.

Lemma rewrite_lines_unchanged ls depth :
  Forall (Forall unchanged) ls ->
  all_of (all_of parses_back) ls ->
  list_max (map (fun line => list_max (map height line)) ls) < depth ->
  forall texts,
    mapM (mapM text_of) ls = Returns texts ->
    mapM (mapM (fun c => text <- text_of c ;; rewrite_at depth [] text true)) ls
    = Returns texts.
Proof.
  induction 1 as [|line ls Hline _ IH]; intros Hrt Hh texts Htexts.
  - exact Htexts.
  - cbn [map] in Hh. rewrite list_max_cons in Hh.
    destruct Hrt as [Hrx Hrl].
    cbn [mapM] in Htexts |- *.
    destruct (mapM text_of line) as [tx|e] eqn:Ex; [|discriminate Htexts].
    rewrite (rewrite_children_unchanged line depth Hline Hrx ltac:(lia) tx Ex).
    cbn [bind] in Htexts |- *.
    destruct (mapM (mapM text_of) ls) as [tl|e] eqn:El; [|discriminate Htexts].
    rewrite (IH Hrl ltac:(lia) tl eq_refl). exact Htexts.
Qed.

Lemma rewrite_unchanged e : unchanged e.
Proof.
  induction e using pyobj_rect_nested; unfold rewrite_unchanged_on;
    intros text Htext Hrt depth top Hh;
    (destruct depth as [|depth]; [inversion Hh|]);
    try discriminate Htext;
    destruct Hrt as [Hback Hsub]; pose proof (Hback text Htext) as Heval;
    cbn [crewrite]; rewrite Heval;
    cbn [bind is_ctree is_scriptChild is_cpage orb]; try reflexivity.
  - (* OperatorNode *)
    cbn [height] in Hh. apply PeanoNat.lt_S_n in Hh.
    cbn [buildcrs] in Htext.
    destruct (mapM text_of operands) as [texts|err] eqn:Ets;
      [|discriminate Htext].
    assert (Hdig : buildcrs_crsrewrite render_cdataset render_ctree
                     render_scriptChild render_cpage
                     (fun t => rewrite_at depth [] t true)
                     (ctree operator script operands parameters)
                   = Returns text).
    { unfold buildcrs_crsrewrite. cbn [render_node].
      rewrite (rewrite_children_unchanged operands depth H Hsub Hh texts Ets).
      exact Htext. }
    destruct top; exact Hdig.
  - (* ExtractionNode *)
    cbn [height] in Hh. apply PeanoNat.lt_S_n in Hh.
    cbn [buildcrs] in Htext.
    destruct (text_of e) as [tf|err] eqn:Etf; [|discriminate Htext].
    assert (Hdig : buildcrs_crsrewrite render_cdataset render_ctree
                     render_scriptChild render_cpage
                     (fun t => rewrite_at depth [] t true)
                     (scriptChild e varname)
                   = Returns text).
    { unfold buildcrs_crsrewrite. cbn [render_node].
      rewrite Etf. cbn [bind].
      rewrite (IHe tf Etf Hsub depth true Hh). exact Htext. }
    destruct top; exact Hdig.
  - (* CompositeNode *)
    cbn [height] in Hh. apply PeanoNat.lt_S_n in Hh.
    cbn [buildcrs] in Htext.
    destruct (mapM (mapM text_of) fig_lines) as [texts|err] eqn:Ets;
      [|discriminate Htext].
    assert (Hdig : buildcrs_crsrewrite render_cdataset render_ctree
                     render_scriptChild render_cpage
                     (fun t => rewrite_at depth [] t true)
                     (cpage widths_list heights_list fig_lines orientation)
                   = Returns text).
    { unfold buildcrs_crsrewrite. cbn [render_node].
      rewrite (rewrite_lines_unchanged fig_lines depth H Hsub Hh texts Ets).
      exact Htext. }
    destruct top; exact Hdig.
Qed.

End RewriteEmpty.

(** C9. Rewrite idempotence on no-match: for every expression E that has a
    textual rendering, which the interpreter reads back into E (and likewise
    for the sub-expressions of E), rewriting that text against an empty
    Registry returns exactly that text, with [alsoAtTop] set or not, as soon
    as the interpreter allows more nested calls than E has levels. *)
Theorem crewrite_empty_registry
        (render_cdataset : pydict string -> string)
        (render_ctree : string -> string -> list string -> pydict pylit -> string)
        (render_scriptChild : string -> string -> string)
        (render_cpage : list Z -> list Z -> list (list string) -> string -> string)
        (eval_crs : string -> outcome pyobj)
        (E : pyobj) (text : string) (depth : nat) (alsoAtTop : bool) :
  buildcrs render_cdataset render_ctree render_scriptChild render_cpage E
  = Returns text ->
  round_trips render_cdataset render_ctree render_scriptChild render_cpage
              eval_crs E ->
  height E < depth ->
  crewrite render_cdataset render_ctree render_scriptChild render_cpage
           eval_crs depth [] text alsoAtTop
  = Returns text.
Proof.
  intros Htext Hrt Hh.
  exact (rewrite_unchanged render_cdataset render_ctree render_scriptChild
           render_cpage eval_crs E text Htext Hrt depth alsoAtTop Hh).
Qed.

Lemma crewrite_empty_registry_witness :
  buildcrs Example.render_cdataset Example.render_ctree
           Example.render_scriptChild Example.render_cpage Example.crest
  = Returns "sub(ds(variable='rst'),ds(variable='rstcs'))"
  /\ crewrite Example.render_cdataset Example.render_ctree
              Example.render_scriptChild Example.render_cpage
              Example.eval_crs 1000
              [] "sub(ds(variable='rst'),ds(variable='rstcs'))" true
     = Returns "sub(ds(variable='rst'),ds(variable='rstcs'))".
Proof.
  split; [reflexivity |].
  refine (crewrite_empty_registry
            Example.render_cdataset Example.render_ctree
            Example.render_scriptChild Example.render_cpage
            Example.eval_crs Example.crest
            "sub(ds(variable='rst'),ds(variable='rstcs'))" 1000 true
            eq_refl _ _).
  - cbn. repeat split; intros text H; inversion H; reflexivity.
  - cbn. lia.
Defined.

(** * Further properties *)

(** ** The matcher: what it returns *)

Lemma getitem_key_In {V : Type} (d : pydict V) k :
  In k (map fst d) -> getitem d k <> None.
Proof.
  intro H. apply in_map_iff in H as [[k' v] [E Hin]]. cbn in E. subst k'.
  now apply (getitem_In d k v).
Qed.

(** The subscripts of line 165 are always on keys that the dicts have. *)
Lemma parameters_nok_returns mfull cfull mpars cpars nok :
  incl (map fst mpars) (map fst mfull) ->
  incl (map fst cpars) (map fst cfull) ->
  exists b, parameters_nok mfull cfull mpars cpars nok = Returns b.
Proof.
  revert cpars nok.
  induction mpars as [|[mpara mv] mpars IH]; intros cpars nok Hm Hc.
  - now exists nok.
  - destruct cpars as [|[para cv] cpars]; [now exists nok|].
    cbn [parameters_nok].
    assert (Hm' : incl (map fst mpars) (map fst mfull))
      by (intros x Hx; apply Hm; now right).
    assert (Hc' : incl (map fst cpars) (map fst cfull))
      by (intros x Hx; apply Hc; now right).
    destruct (String.eqb mpara para) eqn:E; cbn [negb].
    + apply String.eqb_eq in E. subst mpara.
      assert (H1 : getitem mfull para <> None)
        by (apply getitem_key_In, Hm; now left).
      assert (H2 : getitem cfull para <> None)
        by (apply getitem_key_In, Hc; now left).
      destruct (getitem mfull para); [|congruence].
      destruct (getitem cfull para); [|congruence].
      cbn [bind]. now apply IH.
    + cbn [bind]. now apply IH.
Qed.

Lemma cmatch_operands_returns mops :
  Forall (fun mop => extraction_free mop = true ->
                     forall op, exists A, cmatch mop op = Returns A) mops ->
  forallb extraction_free mops = true ->
  forall ops argsub, exists A, cmatch_operands mops ops argsub = Returns A.
Proof.
  induction 1 as [|mop mops Hmop _ IH]; intros Hall ops argsub.
  - now exists argsub.
  - cbn [forallb] in Hall. apply andb_prop in Hall as [H1 H2].
    destruct ops as [|op ops]; [now exists argsub|].
    cbn [cmatch_operands].
    destruct (is_cdummy mop); [now apply IH|].
    destruct (Hmop H1 op) as [sub ->]. cbn [bind]. now apply IH.
Qed.

Lemma cmatch_returns_aux macro :
  extraction_free macro = true ->
  forall cobj, exists A, cmatch macro cobj = Returns A.
Proof.
  induction macro using pyobj_rect_nested; intros Hfree cobj;
    try (destruct cobj; now exists []);
    try discriminate Hfree.
  destruct cobj; try now exists [].
  rewrite cmatch_ctree_ctree.
  destruct (String.eqb operator operator0); [|now exists []].
  destruct (parameters_nok_returns parameters parameters0 parameters
              parameters0 false (incl_refl _) (incl_refl _)) as [b ->].
  cbn [bind]. destruct b; [now exists []|].
  apply cmatch_operands_returns; assumption.
Qed.

(** X1. On a template that is not itself an ExtractionNode and in which no
    ExtractionNode is reached through operands of OperatorNodes, the matcher
    returns a capture list and raises nothing, whatever the candidate is. *)
Theorem cmatch_extraction_free_returns (macro cobj : pyobj) :
  extraction_free macro = true ->
  exists A, cmatch macro cobj = Returns A.
Proof.
  intro H. now apply cmatch_returns_aux.
Qed.

Lemma cmatch_extraction_free_returns_witness :
  extraction_free (ctree "sub" "sub.sh" [cdummy; ctree "neg" "neg.sh" [cdummy] []] [])
  = true
  /\ exists A,
      cmatch (ctree "sub" "sub.sh" [cdummy; ctree "neg" "neg.sh" [cdummy] []] [])
             (scriptChild Example.crest "out") = Returns A.
Proof.
  split; [reflexivity |].
  exact (cmatch_extraction_free_returns
           (ctree "sub" "sub.sh" [cdummy; ctree "neg" "neg.sh" [cdummy] []] [])
           (scriptChild Example.crest "out") eq_refl).
Defined.

Lemma list_sum_cons a l : list_sum (a :: l) = a + list_sum l.
Proof. reflexivity. Qed.

Lemma cmatch_operands_bound mops :
  Forall (fun mop => forall op A, cmatch mop op = Returns A ->
                                  List.length A <= placeholderCount mop) mops ->
  forall ops argsub A,
    cmatch_operands mops ops argsub = Returns A ->
    List.length A <= List.length argsub + list_sum (map placeholderCount mops).
Proof.
  induction 1 as [|mop mops Hmop _ IH]; intros ops argsub A Hrun.
  - cbn in Hrun. inversion Hrun; subst. cbn. lia.
  - cbn [map]. rewrite list_sum_cons.
    destruct ops as [|op ops].
    + cbn in Hrun. inversion Hrun; subst. lia.
    + cbn [cmatch_operands] in Hrun.
      destruct (is_cdummy mop) eqn:Ed.
      * destruct mop; try discriminate Ed.
        apply IH in Hrun. rewrite length_app in Hrun. cbn in Hrun |- *. lia.
      * destruct (cmatch mop op) as [sub|e] eqn:Es; [|discriminate Hrun].
        cbn [bind] in Hrun. apply IH in Hrun. rewrite length_app in Hrun.
        specialize (Hmop op sub Es). lia.
Qed.

Lemma cmatch_bound_aux macro :
  forall cobj A, cmatch macro cobj = Returns A ->
                 List.length A <= placeholderCount macro.
Proof.
  induction macro using pyobj_rect_nested; intros cobj A Hrun;
    try (destruct cobj; cbn in Hrun; inversion Hrun; subst; cbn; lia).
  - destruct cobj; try (cbn in Hrun; inversion Hrun; subst; cbn; lia).
    rewrite cmatch_ctree_ctree in Hrun.
    destruct (String.eqb operator operator0);
      [|inversion Hrun; subst; cbn; lia].
    destruct (parameters_nok parameters parameters0 parameters parameters0 false)
      as [[|]|e]; cbn [bind] in Hrun;
      try (inversion Hrun; subst; cbn; lia).
    apply (cmatch_operands_bound operands H) in Hrun. exact Hrun.
  - destruct cobj; try (cbn in Hrun; inversion Hrun; subst; cbn; lia).
    cbn [cmatch] in Hrun.
    destruct (String.eqb varname varname0);
      [discriminate Hrun | inversion Hrun; subst; cbn; lia].
Qed.

(** X2. A match never captures more sub-expressions than the template has
    Placeholders. *)
Theorem cmatch_captures_at_most_placeholders (macro cobj : pyobj)
        (A : list pyobj) :
  cmatch macro cobj = Returns A ->
  List.length A <= placeholderCount macro.
Proof.
  apply cmatch_bound_aux.
Qed.

Lemma cmatch_captures_at_most_placeholders_witness :
  cmatch (ctree "sub" "sub.sh" [cdummy; cdummy] []) Example.crest
  = Returns [Example.rst; Example.rstcs]
  /\ List.length [Example.rst; Example.rstcs]
     <= placeholderCount (ctree "sub" "sub.sh" [cdummy; cdummy] []).
Proof.
  split; [reflexivity |].
  exact (cmatch_captures_at_most_placeholders
           (ctree "sub" "sub.sh" [cdummy; cdummy] []) Example.crest
           [Example.rst; Example.rstcs] eq_refl).
Defined.

Ltac split_membership :=
  repeat first [ progress cbn [In app flat_map] in * | rewrite in_app_iff in * ].

Lemma cmatch_operands_descendants mops :
  Forall (fun mop => forall op A, cmatch mop op = Returns A ->
                                  incl A (operand_descendants op)) mops ->
  forall ops argsub A,
    cmatch_operands mops ops argsub = Returns A ->
    incl A (argsub ++ flat_map (fun o => o :: operand_descendants o) ops).
Proof.
  induction 1 as [|mop mops Hmop _ IH]; intros ops argsub A Hrun.
  - cbn in Hrun. inversion Hrun; subst. now apply incl_appl, incl_refl.
  - destruct ops as [|op ops].
    + cbn in Hrun. inversion Hrun; subst. now apply incl_appl, incl_refl.
    + cbn [cmatch_operands] in Hrun.
      destruct (is_cdummy mop).
      * apply IH in Hrun. intros x Hx. apply Hrun in Hx. clear Hrun IH.
        split_membership. tauto.
      * destruct (cmatch mop op) as [sub|e] eqn:Es; [|discriminate Hrun].
        cbn [bind] in Hrun. apply IH in Hrun.
        specialize (Hmop op sub Es).
        intros x Hx. apply Hrun in Hx. clear Hrun IH.
        assert (Hsub : In x sub -> In x (operand_descendants op))
          by apply Hmop.
        clear Hmop Es. split_membership. tauto.
Qed.

Lemma cmatch_descendants_aux macro :
  forall cobj A, cmatch macro cobj = Returns A ->
                 incl A (operand_descendants cobj).
Proof.
  induction macro using pyobj_rect_nested; intros cobj A Hrun;
    try (destruct cobj; cbn in Hrun; inversion Hrun; subst; apply incl_nil_l).
  - destruct cobj;
      try (cbn in Hrun; inversion Hrun; subst; apply incl_nil_l).
    rewrite cmatch_ctree_ctree in Hrun.
    destruct (String.eqb operator operator0);
      [|inversion Hrun; subst; apply incl_nil_l].
    destruct (parameters_nok parameters parameters0 parameters parameters0 false)
      as [[|]|e]; cbn [bind] in Hrun;
      try (inversion Hrun; subst; apply incl_nil_l); try discriminate Hrun.
    apply (cmatch_operands_descendants operands H) in Hrun. exact Hrun.
  - destruct cobj;
      try (cbn in Hrun; inversion Hrun; subst; apply incl_nil_l).
    cbn [cmatch] in Hrun.
    destruct (String.eqb varname varname0);
      [discriminate Hrun | inversion Hrun; subst; apply incl_nil_l].
Qed.

(** X3. Whatever the matcher captures is a sub-expression of the candidate,
    reached from its root through operands of OperatorNodes; the root itself
    is never captured. *)
Theorem cmatch_captures_are_operands (macro cobj : pyobj) (A : list pyobj) :
  cmatch macro cobj = Returns A ->
  incl A (operand_descendants cobj).
Proof.
  apply cmatch_descendants_aux.
Qed.

Lemma cmatch_captures_are_operands_witness :
  cmatch (ctree "sub" "sub.sh" [cdummy; cdummy] []) Example.crest
  = Returns [Example.rst; Example.rstcs]
  /\ incl [Example.rst; Example.rstcs] (operand_descendants Example.crest).
Proof.
  split; [reflexivity |].
  exact (cmatch_captures_are_operands
           (ctree "sub" "sub.sh" [cdummy; cdummy] []) Example.crest
           [Example.rst; Example.rstcs] eq_refl).
Defined.

Lemma cmatch_operands_placeholders n ops argsub :
  cmatch_operands (repeat cdummy n) ops argsub = Returns (argsub ++ firstn n ops).
Proof.
  revert ops argsub. induction n as [|n IH]; intros ops argsub.
  - cbn. now rewrite app_nil_r.
  - destruct ops as [|op ops]; cbn [repeat cmatch_operands is_cdummy firstn].
    + now rewrite app_nil_r.
    + rewrite IH, <- app_assoc. reflexivity.
Qed.


(** ** The matcher: parameters *)

Lemma pylit_eqb_eq a b : pylit_eqb a b = true -> a = b.
Proof.
  destruct a, b; cbn; intro H; try discriminate H.
  - apply Z.eqb_eq in H. now subst.
  - apply String.eqb_eq in H. now subst.
Qed.

Lemma getitem_NoDup {V : Type} (d : pydict V) k v :
  NoDup (map fst d) -> In (k, v) d -> getitem d k = Some v.
Proof.
  induction d as [|[k' v'] d IH]; cbn [map fst getitem In]; [tauto|].
  intros Hnd [E|Hin].
  - inversion E; subst. now rewrite String.eqb_refl.
  - inversion Hnd as [|? ? Hnotin Hnd']; subst.
    destruct (String.eqb k' k) eqn:Ek; [|now apply IH].
    apply String.eqb_eq in Ek. subst k'.
    exfalso. apply Hnotin. apply in_map_iff. now exists (k, v).
Qed.

(** Once a mismatch has been seen, [nok] stays true. *)
Lemma parameters_nok_stays_true mfull cfull mpars cpars :
  incl (map fst mpars) (map fst mfull) ->
  incl (map fst cpars) (map fst cfull) ->
  parameters_nok mfull cfull mpars cpars true = Returns true.
Proof.
  revert cpars.
  induction mpars as [|[mpara mv] mpars IH]; intros cpars Hm Hc;
    [reflexivity|].
  destruct cpars as [|[para cv] cpars]; [reflexivity|].
  cbn [parameters_nok].
  assert (Hm' : incl (map fst mpars) (map fst mfull))
    by (intros x Hx; apply Hm; now right).
  assert (Hc' : incl (map fst cpars) (map fst cfull))
    by (intros x Hx; apply Hc; now right).
  destruct (String.eqb mpara para) eqn:E; cbn [negb].
  - apply String.eqb_eq in E. subst mpara.
    assert (H1 : getitem mfull para <> None)
      by (apply getitem_key_In, Hm; now left).
    assert (H2 : getitem cfull para <> None)
      by (apply getitem_key_In, Hc; now left).
    destruct (getitem mfull para); [|congruence].
    destruct (getitem cfull para); [|congruence].
    cbn [bind]. destruct (negb (pylit_eqb p p0)); now apply IH.
  - cbn [bind]. now apply IH.
Qed.

Lemma parameters_nok_differ mfull cfull :
  NoDup (map fst mfull) -> NoDup (map fst cfull) ->
  forall mpars cpars,
    incl mpars mfull -> incl cpars cfull ->
    map fst mpars = map fst cpars ->
    mpars <> cpars ->
    parameters_nok mfull cfull mpars cpars false = Returns true.
Proof.
  intros Hndm Hndc.
  induction mpars as [|[k mv] mpars IH]; intros cpars Hm Hc Hkeys Hne.
  - destruct cpars; [congruence | discriminate Hkeys].
  - destruct cpars as [|[k' cv] cpars]; [discriminate Hkeys|].
    cbn [map fst] in Hkeys. inversion Hkeys as [[Ek Hrest]]. subst k'.
    cbn [parameters_nok]. rewrite String.eqb_refl. cbn [negb].
    rewrite (getitem_NoDup mfull k mv Hndm) by (apply Hm; now left).
    rewrite (getitem_NoDup cfull k cv Hndc) by (apply Hc; now left).
    assert (Hm' : incl mpars mfull) by (intros x Hx; apply Hm; now right).
    assert (Hc' : incl cpars cfull) by (intros x Hx; apply Hc; now right).
    cbn [bind]. destruct (pylit_eqb mv cv) eqn:Ev; cbn [negb].
    + apply pylit_eqb_eq in Ev. subst cv.
      apply IH; try assumption. congruence.
    + apply parameters_nok_stays_true; now apply incl_map.
Qed.

(** X5. Two OperatorNodes whose parameter dicts have the same keys in the
    same order (each key once) but are not equal, that is with a different
    value under some key, do not match, whatever their operands are. *)
Theorem cmatch_parameter_value_mismatch
        (mop s1 op s2 : string) (mops ops : list pyobj)
        (mpars cpars : pydict pylit) :
  NoDup (map fst mpars) ->
  map fst mpars = map fst cpars ->
  mpars <> cpars ->
  cmatch (ctree mop s1 mops mpars) (ctree op s2 ops cpars) = Returns [].
Proof.
  intros Hnd Hkeys Hne.
  rewrite cmatch_ctree_ctree.
  destruct (String.eqb mop op); [|reflexivity].
  rewrite (parameters_nok_differ mpars cpars Hnd) ; try apply incl_refl;
    try assumption; [reflexivity|].
  now rewrite <- Hkeys.
Qed.

Lemma cmatch_parameter_value_mismatch_witness :
  NoDup (map fst [("latmin", LInt 40); ("latmax", LInt 60)])
  /\ cmatch (ctree "llbox" "llbox.sh" [cdummy]
                   [("latmin", LInt 40); ("latmax", LInt 60)])
            (ctree "llbox" "llbox.sh" [Example.rst]
                   [("latmin", LInt 40); ("latmax", LInt 70)])
     = Returns [].
Proof.
  assert (Hnd : NoDup (map fst [("latmin", LInt 40); ("latmax", LInt 60)])).
  { cbn. repeat constructor; cbn; intuition discriminate. }
  split; [exact Hnd |].
  refine (cmatch_parameter_value_mismatch "llbox" "llbox.sh" "llbox" "llbox.sh"
            [cdummy] [Example.rst]
            [("latmin", LInt 40); ("latmax", LInt 60)]
            [("latmin", LInt 40); ("latmax", LInt 70)]
            Hnd eq_refl _).
  discriminate.
Defined.

(** ** The instantiator: operands *)

Lemma length_zero_nil {A : Type} (l : list A) :
  Nat.eqb (List.length l) 0 = true -> l = [].
Proof. destruct l; [reflexivity | discriminate]. Qed.

(** X6. A top-level call of [instantiate] never returns with operands left
    in the list, whatever kind of object it is given as template. *)
Theorem instantiate_toplevel_leaves_no_operand
        (variable_of : pyobj -> string -> option string)
        (kwargs : pydict pylit -> pydict pylit)
        (mac v : pyobj) (operands rest : list pyobj) :
  instantiate variable_of kwargs mac operands true = (Returns v, rest) ->
  rest = [].
Proof.
  intro Hrun.
  destruct (no_branch mac) eqn:Eb.
  - rewrite instantiate_no_branch in Hrun by assumption.
    destruct (true && negb (Nat.eqb (List.length operands) 0));
      discriminate Hrun.
  - rewrite instantiate_toplevel in Hrun by assumption.
    destruct (instantiate variable_of kwargs mac operands false) as [[w|e] rest'];
      [|discriminate Hrun].
    destruct (Nat.eqb (List.length rest') 0) eqn:El; cbn [negb] in Hrun;
      [|discriminate Hrun].
    inversion Hrun; subst. now apply length_zero_nil.
Qed.

Lemma instantiate_toplevel_leaves_no_operand_witness :
  instantiate (fun _ _ => None) Example.kwargs (ctree "sub" "sub.sh" [cdummy; cdummy] [])
              [Example.rst; Example.rstcs] true
  = (Returns Example.crest, [])
  /\ @nil pyobj = [].
Proof.
  split; [reflexivity |].
  exact (instantiate_toplevel_leaves_no_operand (fun _ _ => None) Example.kwargs
           (ctree "sub" "sub.sh" [cdummy; cdummy] []) Example.crest
           [Example.rst; Example.rstcs] [] eq_refl).
Defined.

(** X7. On a template made of Placeholders, OperatorNodes, DatasetRefs and
    ExtractionNodes with a readable attribute [variable], the top-level call
    returns an expression exactly when the number of operands is the number
    of Placeholders of the template. *)
Theorem instantiate_returns_iff_arity
        (variable_of : pyobj -> string -> option string)
        (kwargs : pydict pylit -> pydict pylit)
        (t : pyobj) (operands : list pyobj) :
  instantiable variable_of t = true ->
  (exists v, instantiate variable_of kwargs t operands true = (Returns v, []))
  <-> List.length operands = placeholderCount t.
Proof.
  intro Hi.
  pose proof (instantiable_has_branch variable_of t Hi) as Hb.
  destruct (instantiate_consumes variable_of kwargs t Hi operands) as [Hge Hlt].
  rewrite (instantiate_toplevel variable_of kwargs t operands Hb).
  destruct (Nat.le_gt_cases (placeholderCount t) (List.length operands))
    as [Hle|Hgt].
  - destruct (Hge Hle) as [v Hv]. rewrite Hv.
    destruct (Nat.eqb (List.length (skipn (placeholderCount t) operands)) 0)
      eqn:El; cbn [negb].
    + pose proof El as El'. apply Nat.eqb_eq in El'.
      rewrite length_skipn in El'. split; [intros _; lia|].
      intros _. exists v. now rewrite (length_zero_nil _ El).
    + apply Nat.eqb_neq in El. rewrite length_skipn in El.
      split; [intros [w Hw]; discriminate Hw | intro; lia].
  - rewrite (Hlt Hgt). split; [intros [w Hw]; discriminate Hw | intro; lia].
Qed.

Lemma instantiate_returns_iff_arity_witness :
  instantiable (fun _ _ => None)
    (ctree "sub" "sub.sh" [cdummy; ctree "neg" "neg.sh" [cdummy] []] []) = true
  /\ ((exists v,
          instantiate (fun _ _ => None) Example.kwargs
            (ctree "sub" "sub.sh" [cdummy; ctree "neg" "neg.sh" [cdummy] []] [])
            [Example.rst; Example.rstcs] true = (Returns v, []))
      <-> List.length [Example.rst; Example.rstcs]
          = placeholderCount
              (ctree "sub" "sub.sh" [cdummy; ctree "neg" "neg.sh" [cdummy] []] [])).
Proof.
  split; [reflexivity |].
  exact (instantiate_returns_iff_arity (fun _ _ => None) Example.kwargs
           (ctree "sub" "sub.sh" [cdummy; ctree "neg" "neg.sh" [cdummy] []] [])
           [Example.rst; Example.rstcs] eq_refl).
Defined.

(** X8. When the operands are too few for such a template, the call raises
    the insufficient-operands error only after it has popped every operand:
    the list that the caller passed is left empty. *)
Theorem instantiate_insufficient_empties_operands
        (variable_of : pyobj -> string -> option string)
        (kwargs : pydict pylit -> pydict pylit)
        (t : pyobj) (operands : list pyobj) :
  instantiable variable_of t = true ->
  List.length operands < placeholderCount t ->
  instantiate variable_of kwargs t operands true
  = (Raises (Climaf_Macro_Error no_operand_left), []).
Proof.
  intros Hi Hlt.
  rewrite instantiate_toplevel
    by (apply (instantiable_has_branch variable_of); assumption).
  destruct (instantiate_consumes variable_of kwargs t Hi operands) as [_ H].
  now rewrite (H Hlt).
Qed.

Lemma instantiate_insufficient_empties_operands_witness :
  instantiable (fun _ _ => None) (ctree "sub" "sub.sh" [cdummy; cdummy] []) = true
  /\ instantiate (fun _ _ => None) Example.kwargs (ctree "sub" "sub.sh" [cdummy; cdummy] [])
                 [Example.rst] true
     = (Raises (Climaf_Macro_Error no_operand_left), []).
Proof.
  split; [reflexivity |].
  refine (instantiate_insufficient_empties_operands (fun _ _ => None) Example.kwargs
            (ctree "sub" "sub.sh" [cdummy; cdummy] []) [Example.rst] eq_refl _).
  cbn. lia.
Defined.

(** ** The macro builder: anonymous builds *)

Section BuilderSteps.

Variable render_cdataset : pydict string -> string.
Variable render_ctree : string -> string -> list string -> pydict pylit -> string.
Variable render_scriptChild : string -> string -> string.
Variable render_cpage : list Z -> list Z -> list (list string) -> string -> string.
Variable py_eq : pyobj -> pyobj -> bool.
Variable exec_defs : string -> pyobj -> option exn.
Variable kwargs : pydict pylit -> pydict pylit.

Local Notation "'build'" :=
  (cmacro_object render_cdataset render_ctree render_scriptChild render_cpage
                 py_eq exec_defs kwargs).
Local Notation "'build_all'" :=
  (map_cmacro (fun o => cmacro_object render_cdataset render_ctree
                          render_scriptChild render_cpage py_eq exec_defs kwargs
                          None o [])).
Local Notation "'build_lines'" :=
  (cmacro_lines render_cdataset render_ctree render_scriptChild render_cpage
                py_eq exec_defs kwargs).

Lemma cmacro_object_ctree name operator script operands parameters st :
  build name (ctree operator script operands parameters) [] st =
  match build_all operands st with
  | (Returns ops, st1) =>
      register exec_defs name (ctree operator script ops (kwargs parameters))
               st1
  | (Raises e, st1) => (Raises e, st1)
  end.
Proof. reflexivity. Qed.

Lemma cmacro_object_cpage name widths_list heights_list fig_lines orientation st :
  build name (cpage widths_list heights_list fig_lines orientation) [] st =
  match build_lines fig_lines st with
  | (Returns lines, st1) =>
      register exec_defs name
               (cpage widths_list heights_list lines orientation) st1
  | (Raises e, st1) => (Raises e, st1)
  end.
Proof. reflexivity. Qed.

(** The objects listed in [lobjects] only matter at the root. *)
Lemma cmacro_object_lobjects name cobj lobjects st :
  build name cobj lobjects st =
  match domatch_loop render_cdataset render_ctree render_scriptChild
                     render_cpage py_eq cobj lobjects false with
  | Raises e => (Raises e, st)
  | Returns true => (Returns cdummy, st)
  | Returns false => build name cobj [] st
  end.
Proof.
  destruct cobj; cbn [cmacro_object domatch_loop];
    destruct (domatch_loop render_cdataset render_ctree render_scriptChild
                render_cpage py_eq _ lobjects false) as [[|]|e]; reflexivity.
Qed.

(** The name only matters once the template is built. *)
Lemma cmacro_object_named name cobj st :
  build name cobj [] st =
  match build None cobj [] st with
  | (Returns rep, st1) =>
      if is_ctree cobj || is_scriptChild cobj || is_cpage cobj
      then register exec_defs name rep st1
      else (Returns rep, st1)
  | (Raises e, st1) => (Raises e, st1)
  end.
Proof.
  destruct cobj; try reflexivity.
  - rewrite !cmacro_object_ctree.
    destruct (build_all operands st) as [[ops|e] st1]; reflexivity.
  - cbn [cmacro_object domatch_loop is_cdataset is_cdummy orb].
    destruct (build None cobj [] st) as [[f|e] st1]; reflexivity.
  - rewrite !cmacro_object_cpage.
    destruct (build_lines fig_lines st) as [[ls|e] st1]; reflexivity.
Qed.

Local Notation "'anonymous_build_ok'" :=
  (anonymous_build_returns render_cdataset render_ctree render_scriptChild
                           render_cpage py_eq exec_defs kwargs).

Lemma build_all_ok l :
  Forall anonymous_build_ok l ->
  forall st, exists reps st',
    build_all l st = (Returns reps, st')
    /\ cmacros st' = cmacros st
    /\ functions st' = functions st
    /\ existsb contains_dataset reps = false
    /\ existsb contains_unsupported reps = false.
Proof.
  induction 1 as [|o l Ho _ IH]; intro st.
  - exists [], st. now cbn.
  - destruct (Ho st) as (r & st1 & Hr & Hc1 & Hf1 & Hd1 & Hu1).
    destruct (IH st1) as (rs & st2 & Hrs & Hc2 & Hf2 & Hd2 & Hu2).
    exists (r :: rs), st2. cbn [map_cmacro]. rewrite Hr, Hrs.
    cbn [existsb]. rewrite Hd1, Hd2, Hu1, Hu2.
    repeat split; congruence.
Qed.

Lemma build_lines_ok ls :
  Forall (Forall anonymous_build_ok) ls ->
  forall st, exists lines st',
    build_lines ls st = (Returns lines, st')
    /\ cmacros st' = cmacros st
    /\ functions st' = functions st
    /\ existsb (existsb contains_dataset) lines = false
    /\ existsb (existsb contains_unsupported) lines = false.
Proof.
  induction 1 as [|line ls Hline _ IH]; intro st.
  - exists [], st. now cbn.
  - destruct (build_all_ok line Hline st)
      as (r & st1 & Hr & Hc1 & Hf1 & Hd1 & Hu1).
    destruct (IH st1) as (rs & st2 & Hrs & Hc2 & Hf2 & Hd2 & Hu2).
    exists (r :: rs), st2. cbn [cmacro_lines]. rewrite Hr, Hrs.
    cbn [existsb]. rewrite Hd1, Hd2, Hu1, Hu2.
    repeat split; congruence.
Qed.

Lemma anonymous_build t : anonymous_build_ok t.
Proof.
  induction t using pyobj_rect_nested; intro st.
  - exists cdummy, st. now cbn.
  - exists cdummy, st. now cbn.
  - destruct (build_all_ok operands H st)
      as (ops & st1 & Hops & Hc & Hf & Hd & Hu).
    exists (ctree operator script ops (kwargs parameters)), st1.
    rewrite cmacro_object_ctree, Hops. now cbn.
  - destruct (IHt st) as (f & st1 & Hf' & Hc & Hf & Hd & Hu).
    exists (scriptChild f varname), st1.
    cbn [cmacro_object domatch_loop is_cdataset is_cdummy orb].
    rewrite Hf'. now cbn.
  - destruct (build_lines_ok fig_lines H st)
      as (ls & st1 & Hls & Hc & Hf & Hd & Hu).
    exists (cpage widths_list heights_list ls orientation), st1.
    rewrite cmacro_object_cpage, Hls. now cbn.
  - exists PyNone, st. now cbn.
  - exists PyNone, (logged (error_cannot_yet_handle_object cdataset_class) st).
    now cbn.
  - exists PyNone, (logged (error_cannot_yet_handle_object (PyOther repr)) st).
    now cbn.
Qed.

End BuilderSteps.

Section BuilderResults.

Variable render_cdataset : pydict string -> string.
Variable render_ctree : string -> string -> list string -> pydict pylit -> string.
Variable render_scriptChild : string -> string -> string.
Variable render_cpage : list Z -> list Z -> list (list string) -> string -> string.
Variable py_eq : pyobj -> pyobj -> bool.
Variable exec_defs : string -> pyobj -> option exn.
Variable kwargs : pydict pylit -> pydict pylit.

Local Notation "'build'" :=
  (cmacro_object render_cdataset render_ctree render_scriptChild render_cpage
                 py_eq exec_defs kwargs).
Local Notation "'build_all'" :=
  (map_cmacro (fun o => cmacro_object render_cdataset render_ctree
                          render_scriptChild render_cpage py_eq exec_defs kwargs
                          None o [])).
Local Notation "'build_lines'" :=
  (cmacro_lines render_cdataset render_ctree render_scriptChild render_cpage
                py_eq exec_defs kwargs).

(** A template free of datasets and of unsupported objects is built into a
    copy of itself, each parameter dict having gone through one more call
    with [**]. *)
Lemma build_all_fixed l :
  Forall (fun r => contains_dataset r = false ->
                   contains_unsupported r = false ->
                   forall st, build None r [] st
                              = (Returns (copied kwargs 1 r), st)) l ->
  existsb contains_dataset l = false ->
  existsb contains_unsupported l = false ->
  forall st, build_all l st = (Returns (map (copied kwargs 1) l), st).
Proof.
  induction 1 as [|r l Hr _ IH]; intros Hd Hu st; [reflexivity|].
  cbn [existsb] in Hd, Hu.
  apply orb_false_iff in Hd as [Hd1 Hd2].
  apply orb_false_iff in Hu as [Hu1 Hu2].
  cbn [map_cmacro map]. now rewrite (Hr Hd1 Hu1 st), (IH Hd2 Hu2 st).
Qed.

Lemma build_lines_fixed ls :
  Forall (Forall (fun r => contains_dataset r = false ->
                           contains_unsupported r = false ->
                           forall st, build None r [] st
                                      = (Returns (copied kwargs 1 r), st))) ls ->
  existsb (existsb contains_dataset) ls = false ->
  existsb (existsb contains_unsupported) ls = false ->
  forall st, build_lines ls st
             = (Returns (map (map (copied kwargs 1)) ls), st).
Proof.
  induction 1 as [|line ls Hline _ IH]; intros Hd Hu st; [reflexivity|].
  cbn [existsb] in Hd, Hu.
  apply orb_false_iff in Hd as [Hd1 Hd2].
  apply orb_false_iff in Hu as [Hu1 Hu2].
  cbn [cmacro_lines map].
  now rewrite (build_all_fixed line Hline Hd1 Hu1 st), (IH Hd2 Hu2 st).
Qed.

Lemma build_fixed r :
  contains_dataset r = false ->
  contains_unsupported r = false ->
  forall st, build None r [] st = (Returns (copied kwargs 1 r), st).
Proof.
  induction r using pyobj_rect_nested; cbn [contains_dataset contains_unsupported];
    intros Hd Hu st; try discriminate; try reflexivity.
  - rewrite cmacro_object_ctree, (build_all_fixed operands H Hd Hu st).
    reflexivity.
  - cbn [cmacro_object domatch_loop is_cdataset is_cdummy orb].
    rewrite (IHr Hd Hu st). reflexivity.
  - rewrite cmacro_object_cpage, (build_lines_fixed fig_lines H Hd Hu st).
    reflexivity.
Qed.

Lemma register_result name rep st r st' :
  register exec_defs name rep st = (Returns r, st') -> r = rep.
Proof.
  unfold register. destruct name as [n|]; [|now inversion 1].
  destruct (truthy_name (Some n)); [|now inversion 1].
  destruct (rebound st "cmacros"); [discriminate|].
  destruct (exec_defs n rep); now inversion 1.
Qed.

End BuilderResults.






(** ** The Registry *)

Lemma getitem_setitem_same {V : Type} (d : pydict V) k v :
  getitem (setitem d k v) k = Some v.
Proof.
  induction d as [|[k' v'] d IH]; cbn [setitem getitem].
  - now rewrite String.eqb_refl.
  - destruct (String.eqb k' k) eqn:E; cbn [getitem]; rewrite E; auto.
Qed.

Lemma getitem_setitem_other {V : Type} (d : pydict V) k v k0 :
  k0 <> k -> getitem (setitem d k v) k0 = getitem d k0.
Proof.
  intro Hne. induction d as [|[k' v'] d IH]; cbn [setitem getitem].
  - destruct (String.eqb k k0) eqn:E; [|reflexivity].
    apply String.eqb_eq in E. congruence.
  - destruct (String.eqb k' k) eqn:E; cbn [getitem].
    + apply String.eqb_eq in E. subst k'.
      destruct (String.eqb k k0) eqn:E0; [|reflexivity].
      apply String.eqb_eq in E0. congruence.
    + destruct (String.eqb k' k0); [reflexivity | exact IH].
Qed.

Lemma setitem_keeps_keys {V : Type} (d : pydict V) k v k0 :
  getitem d k0 <> None -> getitem (setitem d k v) k0 <> None.
Proof.
  intro H. destruct (String.eqb k0 k) eqn:E.
  - apply String.eqb_eq in E. subst. now rewrite getitem_setitem_same.
  - apply String.eqb_neq in E. now rewrite getitem_setitem_other.
Qed.

Lemma intact_not_rebound st name :
  intact st -> In name names_in_use -> rebound st name = false.
Proof.
  intros Hin Hname. unfold rebound.
  destruct (existsb (String.eqb name) (functions st)) eqn:E; [|reflexivity].
  apply existsb_exists in E as (n & Hn & En).
  apply String.eqb_eq in En. subst n. now apply Hin in Hn.
Qed.

Lemma cmacros_in_use : In "cmacros" names_in_use.
Proof. cbn. tauto. Qed.

Lemma instantiate_in_use : In "instantiate" names_in_use.
Proof. cbn. tauto. Qed.

Section RegistryFacts.

Variable render_cdataset : pydict string -> string.
Variable render_ctree : string -> string -> list string -> pydict pylit -> string.
Variable render_scriptChild : string -> string -> string.
Variable render_cpage : list Z -> list Z -> list (list string) -> string -> string.
Variable eval_crs : string -> outcome pyobj.
Variable py_eq : pyobj -> pyobj -> bool.
Variable exec_defs : string -> pyobj -> option exn.
Variable kwargs : pydict pylit -> pydict pylit.

Lemma register_registers name rep st :
  name <> "" ->
  rebound st "cmacros" = false ->
  let st' := snd (register exec_defs (Some name) rep st) in
  getitem (cmacros st') name = Some rep
  /\ (forall k, k <> name -> getitem (cmacros st') k = getitem (cmacros st) k)
  /\ (exec_defs name rep = None -> functions st' = functions st ++ [name])
  /\ (exec_defs name rep <> None -> functions st' = functions st).
Proof.
  intros Hne Hdict. unfold register, truthy_name.
  apply String.eqb_neq in Hne. rewrite Hne, Hdict. cbn [negb].
  destruct (exec_defs name rep) as [e|]; cbn;
    (split; [apply getitem_setitem_same |]);
    (split; [intros k Hk; now apply getitem_setitem_other |]);
    split; intro; congruence.
Qed.

Lemma register_keeps_invariant name rep st :
  (forall n, name = Some n -> ~ In n names_in_use) ->
  intact st ->
  functions_registered st ->
  intact (snd (register exec_defs name rep st))
  /\ functions_registered (snd (register exec_defs name rep st)).
Proof.
  intros Hname Hint Hinv. unfold register.
  destruct name as [n|]; [|now split].
  destruct (truthy_name (Some n)); [|now split].
  destruct (rebound st "cmacros"); [now split|].
  specialize (Hname n eq_refl).
  destruct (exec_defs n rep) as [e|]; cbn [snd]; split; intros k Hk;
    cbn in Hk |- *.
  - now apply Hint.
  - apply setitem_keeps_keys. now apply Hinv.
  - apply in_app_iff in Hk as [Hk|[Hk|[]]]; [now apply Hint | now subst k].
  - apply in_app_iff in Hk as [Hk|[Hk|[]]].
    + apply setitem_keeps_keys. now apply Hinv.
    + subst k. now rewrite getitem_setitem_same.
Qed.

Lemma cmacro_object_keeps_invariant name cobj lobjects st :
  (forall n, name = Some n -> ~ In n names_in_use) ->
  intact st ->
  functions_registered st ->
  let st' := snd (cmacro_object render_cdataset render_ctree
                    render_scriptChild render_cpage py_eq exec_defs kwargs
                    name cobj lobjects st) in
  intact st' /\ functions_registered st'.
Proof.
  intros Hname Hint Hinv. cbv zeta. rewrite cmacro_object_lobjects.
  destruct (domatch_loop render_cdataset render_ctree render_scriptChild
              render_cpage py_eq cobj lobjects false) as [[|]|e];
    try (now split).
  rewrite cmacro_object_named.
  destruct (anonymous_build render_cdataset render_ctree render_scriptChild
              render_cpage py_eq exec_defs kwargs cobj st)
    as (r & st1 & H & Hc & Hf & _).
  rewrite H.
  assert (Hint1 : intact st1) by (intros k Hk; apply Hint; now rewrite <- Hf).
  assert (Hinv1 : functions_registered st1).
  { intros k Hk. rewrite Hc. apply Hinv. now rewrite <- Hf. }
  destruct (is_ctree cobj || is_scriptChild cobj || is_cpage cobj);
    [now apply register_keeps_invariant | now split].
Qed.

End RegistryFacts.





(** ** Building, then instantiating or matching *)

Section BuildRoundTrip.

Variable render_cdataset : pydict string -> string.
Variable render_ctree : string -> string -> list string -> pydict pylit -> string.
Variable render_scriptChild : string -> string -> string.
Variable render_cpage : list Z -> list Z -> list (list string) -> string -> string.
Variable py_eq : pyobj -> pyobj -> bool.
Variable exec_defs : string -> pyobj -> option exn.
Variable kwargs : pydict pylit -> pydict pylit.
Variable variable_of : pyobj -> string -> option string.

Local Notation "'build'" :=
  (cmacro_object render_cdataset render_ctree render_scriptChild render_cpage
                 py_eq exec_defs kwargs).
Local Notation "'build_all'" :=
  (map_cmacro (fun o => cmacro_object render_cdataset render_ctree
                          render_scriptChild render_cpage py_eq exec_defs
                          kwargs None o [])).

(** The template of an expression of operators, and what instantiating it
    with the leaves of the expression gives. *)
Lemma build_all_then_instantiate l :
  Forall (fun e =>
            operator_expression e = true ->
            forall st, exists t,
              build None e [] st = (Returns t, st)
              /\ operator_template t = true
              /\ forall rest,
                  instantiate variable_of kwargs t (leaves e ++ rest) false
                  = (Returns (copied kwargs 2 e), rest)) l ->
  forallb operator_expression l = true ->
  forall st, exists ts,
    build_all l st = (Returns ts, st)
    /\ forallb operator_template ts = true
    /\ forall opers rest,
        instantiate_operands variable_of kwargs ts opers
                             (flat_map leaves l ++ rest)
        = (Returns (opers ++ map (copied kwargs 2) l), rest).
Proof.
  induction 1 as [|e l He _ IH]; intros Hall st.
  - exists []. cbn. repeat split. intros. now rewrite app_nil_r.
  - cbn [forallb] in Hall. apply andb_prop in Hall as [H1 H2].
    destruct (He H1 st) as (t & Ht & Hot & Hinst).
    destruct (IH H2 st) as (ts & Hts & Hots & Hloop).
    exists (t :: ts). cbn [map_cmacro forallb]. rewrite Ht, Hts, Hot, Hots.
    repeat split. intros opers rest.
    cbn [flat_map instantiate_operands map].
    rewrite <- app_assoc, Hinst, Hloop.
    now rewrite <- app_assoc.
Qed.

Lemma build_then_instantiate e :
  operator_expression e = true ->
  forall st, exists t,
    build None e [] st = (Returns t, st)
    /\ operator_template t = true
    /\ forall rest,
        instantiate variable_of kwargs t (leaves e ++ rest) false
        = (Returns (copied kwargs 2 e), rest).
Proof.
  induction e using pyobj_rect_nested; cbn [operator_expression];
    intros He st; try discriminate He.
  - exists cdummy. now cbn.
  - exists cdummy. now cbn.
  - destruct (build_all_then_instantiate operands H He st)
      as (ts & Hts & Hots & Hloop).
    exists (ctree operator script ts (kwargs parameters)).
    rewrite cmacro_object_ctree, Hts. cbn [register operator_template].
    repeat split; try assumption.
    intro rest. rewrite instantiate_ctree. cbn [leaves andb].
    now rewrite Hloop.
Qed.

Local Notation "'rematched'" :=
  (rebuilt_template_matches render_cdataset render_ctree render_scriptChild
                            render_cpage py_eq exec_defs kwargs).

Lemma build_all_then_cmatch l :
  Forall rematched l ->
  forallb operator_expression l = true ->
  all_of (keeps_order kwargs) l ->
  forall st, exists ts,
    build_all l st = (Returns ts, st)
    /\ forall argsub,
        cmatch_operands ts l argsub = Returns (argsub ++ flat_map leaves l).
Proof.
  induction 1 as [|e l He _ IH]; intros Hall Hkeep st.
  - exists []. cbn. split; [reflexivity|]. intros. now rewrite app_nil_r.
  - cbn [forallb] in Hall. apply andb_prop in Hall as [H1 H2].
    destruct Hkeep as [Hk1 Hk2].
    destruct (He H1 Hk1 st) as (t & Ht & Hcase).
    destruct (IH H2 Hk2 st) as (ts & Hts & Hloop).
    exists (t :: ts). cbn [map_cmacro]. rewrite Ht, Hts.
    split; [reflexivity|]. intro argsub.
    cbn [cmatch_operands flat_map].
    destruct (is_ctree e).
    + destruct Hcase as [Hd Hm]. rewrite Hd, Hm. cbn [bind].
      now rewrite Hloop, app_assoc.
    + destruct Hcase as [Hd Hl]. rewrite Hd, Hl, Hloop.
      now rewrite <- !app_assoc.
Qed.

Lemma build_then_cmatch e : rematched e.
Proof.
  induction e using pyobj_rect_nested; unfold rebuilt_template_matches;
    cbn [operator_expression keeps_order]; intros He Hkeep st;
    try discriminate He.
  - exists cdummy. now cbn.
  - exists cdummy. now cbn.
  - destruct Hkeep as [Hpars Hkeep].
    destruct (build_all_then_cmatch operands H He Hkeep st)
      as (ts & Hts & Hloop).
    exists (ctree operator script ts parameters).
    rewrite cmacro_object_ctree, Hts, Hpars.
    cbn [register is_ctree is_cdummy leaves]. repeat split.
    rewrite cmatch_ctree_ctree, String.eqb_refl.
    rewrite parameters_nok_same by apply incl_refl.
    cbn [bind]. apply (Hloop []).
Qed.

End BuildRoundTrip.





(** When the copy changes the iteration order, the template built from an
    expression does not match it: the [zip] of line 163 pairs [min] with
    [title]. *)
Example cmacro_then_cmatch_swapped_parameters :
  cmacro Example.render_cdataset Example.render_ctree
         Example.render_scriptChild Example.render_cpage
         Example.eval_crs Example.py_eq Example.exec_defs Example.kwargs
         None
         (Object (ctree "plot" "plot.sh" [Example.rst]
                        [("title", LStr "t"); ("min", LInt 0)])) []
         Example.empty
  = (Returns (ctree "plot" "plot.sh" [cdummy]
                    [("min", LInt 0); ("title", LStr "t")]), Example.empty)
  /\ cmatch (ctree "plot" "plot.sh" [cdummy]
                   [("min", LInt 0); ("title", LStr "t")])
            (ctree "plot" "plot.sh" [Example.rst]
                   [("title", LStr "t"); ("min", LInt 0)])
     = Returns [].
Proof. split; reflexivity. Qed.



(** ** The registry store: what [read] loads *)

Section ReadFacts.

Variable render_cdataset : pydict string -> string.
Variable render_ctree : string -> string -> list string -> pydict pylit -> string.
Variable render_scriptChild : string -> string -> string.
Variable render_cpage : list Z -> list Z -> list (list string) -> string -> string.
Variable eval_crs : string -> outcome pyobj.
Variable py_eq : pyobj -> pyobj -> bool.
Variable exec_defs : string -> pyobj -> option exn.
Variable kwargs : pydict pylit -> pydict pylit.

(** The values that [json.load] yields are never [str] objects nor nodes:
    [cmacro] builds nothing from them. *)
Lemma cmacro_json_value name text st :
  exists st',
    cmacro render_cdataset render_ctree render_scriptChild render_cpage
           eval_crs py_eq exec_defs kwargs name (Object (json_object text)) [] st
    = (Returns PyNone, st')
    /\ cmacros st' = cmacros st
    /\ functions st' = functions st.
Proof.
  destruct text as [[|[|]|z|zero r|s]|r]; cbn; eauto.
Qed.

Lemma load_macros_loads_nothing macros_texts keys st :
  incl (map fst keys) (map fst macros_texts) ->
  exists st',
    load_macros render_cdataset render_ctree render_scriptChild render_cpage
                eval_crs py_eq exec_defs kwargs macros_texts keys st
    = (Returns tt, st')
    /\ cmacros st' = cmacros st
    /\ functions st' = functions st.
Proof.
  revert st. induction keys as [|[m v] keys IH]; intros st Hincl.
  - exists st. now cbn.
  - cbn [load_macros].
    assert (Hm : getitem macros_texts m <> None)
      by (apply getitem_key_In, Hincl; now left).
    destruct (getitem macros_texts m) as [text|]; [|congruence].
    destruct (cmacro_json_value (Some m) text st) as (st1 & H1 & Hc1 & Hf1).
    rewrite H1.
    destruct (IH st1) as (st2 & H2 & Hc2 & Hf2).
    { intros x Hx. apply Hincl. now right. }
    exists st2. rewrite H2. repeat split; congruence.
Qed.

Lemma load_items_loads_nothing macros_texts items st :
  let r := load_items render_cdataset render_ctree render_scriptChild
                      render_cpage eval_crs py_eq exec_defs kwargs
                      macros_texts items st in
  cmacros (snd r) = cmacros st /\ functions (snd r) = functions st.
Proof.
  cbv zeta. revert st. induction items as [|m items IH]; intro st.
  - now cbn.
  - cbn [load_items].
    destruct (list_index m) as [z|]; [|now cbn].
    destruct (list_getitem macros_texts z) as [text|]; [|now cbn].
    destruct (cmacro_json_value (index_name m) text st)
      as (st1 & H1 & Hc1 & Hf1).
    rewrite H1. destruct (IH st1) as [Hc2 Hf2]. split; congruence.
Qed.

End ReadFacts.



(** ** The rewriter, on a Registry that captures nothing *)

Lemma getitem_Some_In {V : Type} (d : pydict V) k v :
  getitem d k = Some v -> In (k, v) d.
Proof.
  induction d as [|[k' v'] d IH]; cbn [getitem]; [discriminate|].
  destruct (String.eqb k' k) eqn:E.
  - apply String.eqb_eq in E. intro H. inversion H; subst. now left.
  - intro H. right. now apply IH.
Qed.

Section RewriteNoCapture.

Variable render_cdataset : pydict string -> string.
Variable render_ctree : string -> string -> list string -> pydict pylit -> string.
Variable render_scriptChild : string -> string -> string.
Variable render_cpage : list Z -> list Z -> list (list string) -> string -> string.
Variable eval_crs : string -> outcome pyobj.
Variable macros : pydict pyobj.

Local Notation "'text_of'" :=
  (buildcrs render_cdataset render_ctree render_scriptChild render_cpage).
Local Notation "'rewrite_at'" :=
  (crewrite render_cdataset render_ctree render_scriptChild render_cpage
            eval_crs).
Local Notation "'parses_back'" :=
  (round_trips render_cdataset render_ctree render_scriptChild render_cpage
               eval_crs).
Local Notation "'dig_with'" :=
  (buildcrs_crsrewrite render_cdataset render_ctree render_scriptChild
                       render_cpage).
Local Notation "'unchanged'" :=
  (rewrite_unchanged_against render_cdataset render_ctree render_scriptChild
                             render_cpage eval_crs macros).

Lemma crewrite_step depth crs alsoAtTop :
  rewrite_at (S depth) macros crs alsoAtTop =
  (co <- eval_crs crs ;;
   if is_ctree co || is_scriptChild co || is_cpage co then
     if alsoAtTop
     then macros_loop render_cdataset render_ctree render_scriptChild
                      render_cpage macros co
                      (fun text => rewrite_at depth macros text true) macros
     else dig_with (fun text => rewrite_at depth macros text true) co
   else Returns crs).
Proof. reflexivity. Qed.

(** No macro of such a Registry is applied: the loop ends in the descent. *)
Lemma macros_loop_no_capture co rewrite ms :
  captures_nothing macros ->
  incl (map fst ms) (map fst macros) ->
  macros_loop render_cdataset render_ctree render_scriptChild render_cpage
              macros co rewrite ms
  = dig_with rewrite co.
Proof.
  intros Hnone. induction ms as [|[m t0] ms IH]; intro Hincl;
    [reflexivity|].
  cbn [macros_loop].
  assert (Hm : getitem macros m <> None)
    by (apply getitem_key_In, Hincl; now left).
  destruct (getitem macros m) as [macro|] eqn:Eg; [|congruence].
  apply getitem_Some_In in Eg. destruct (Hnone m macro Eg) as [Hpc Hfree].
  destruct (cmatch_returns_aux macro Hfree co) as [A HA].
  pose proof (cmatch_bound_aux macro co A HA) as Hlen.
  rewrite HA. cbn [bind].
  destruct A as [|a A]; [|cbn in Hlen; lia].
  apply IH. intros x Hx. apply Hincl. now right.
Qed.

Lemma rewrite_children_unchanged_against l depth :
  Forall unchanged l ->
  all_of parses_back l ->
  list_max (map height l) < depth ->
  forall texts,
    mapM text_of l = Returns texts ->
    mapM (fun c => text <- text_of c ;; rewrite_at depth macros text true) l
    = Returns texts.
Proof.
  induction 1 as [|x l Hx _ IH]; intros Hrt Hh texts Htexts.
  - exact Htexts.
  - cbn [map] in Hh. rewrite list_max_cons in Hh.
    destruct Hrt as [Hrx Hrl].
    cbn [mapM] in Htexts |- *.
    destruct (text_of x) as [tx|e] eqn:Ex; [|discriminate Htexts].
    cbn [bind] in Htexts |- *.
    rewrite (Hx tx Ex Hrx depth true) by lia. cbn [bind].
    destruct (mapM text_of l) as [tl|e] eqn:El; [|discriminate Htexts].
    rewrite (IH Hrl ltac:(lia) tl eq_refl). exact Htexts.
Qed.

Lemma rewrite_lines_unchanged_against ls depth :
  Forall (Forall unchanged) ls ->
  all_of (all_of parses_back) ls ->
  list_max (map (fun line => list_max (map height line)) ls) < depth ->
  forall texts,
    mapM (mapM text_of) ls = Returns texts ->
    mapM (mapM (fun c => text <- text_of c ;;
                         rewrite_at depth macros text true)) ls
    = Returns texts.
Proof.
  induction 1 as [|line ls Hline _ IH]; intros Hrt Hh texts Htexts.
  - exact Htexts.
  - cbn [map] in Hh. rewrite list_max_cons in Hh.
    destruct Hrt as [Hrx Hrl].
    cbn [mapM] in Htexts |- *.
    destruct (mapM text_of line) as [tx|e] eqn:Ex; [|discriminate Htexts].
    rewrite (rewrite_children_unchanged_against line depth Hline Hrx
               ltac:(lia) tx Ex).
    cbn [bind] in Htexts |- *.
    destruct (mapM (mapM text_of) ls) as [tl|e] eqn:El; [|discriminate Htexts].
    rewrite (IH Hrl ltac:(lia) tl eq_refl). exact Htexts.
Qed.

Lemma rewrite_unchanged_against_all e :
  captures_nothing macros -> unchanged e.
Proof.
  intro Hnone.
  induction e using pyobj_rect_nested; unfold rewrite_unchanged_against;
    intros text Htext Hrt depth top Hh;
    (destruct depth as [|depth]; [inversion Hh|]);
    try discriminate Htext;
    destruct Hrt as [Hback Hsub]; pose proof (Hback text Htext) as Heval;
    rewrite crewrite_step, Heval;
    cbn [bind is_ctree is_scriptChild is_cpage orb]; try reflexivity;
    rewrite (macros_loop_no_capture _ _ macros Hnone (incl_refl _));
    cbn [height] in Hh; apply PeanoNat.lt_S_n in Hh;
    cbn [buildcrs] in Htext;
    match goal with
    | |- (if _ then ?d else _) = _ =>
        assert (Hdig : d = Returns text);
        [unfold buildcrs_crsrewrite; cbn [render_node]
        | destruct top; exact Hdig]
    end.
  - destruct (mapM text_of operands) as [texts|err] eqn:Ets;
      [|discriminate Htext].
    rewrite (rewrite_children_unchanged_against operands depth H Hsub Hh
               texts Ets).
    exact Htext.
  - destruct (text_of e) as [tf|err] eqn:Etf; [|discriminate Htext].
    cbn [bind]. rewrite (IHe tf Etf Hsub depth true Hh). exact Htext.
  - destruct (mapM (mapM text_of) fig_lines) as [texts|err] eqn:Ets;
      [|discriminate Htext].
    rewrite (rewrite_lines_unchanged_against fig_lines depth H Hsub Hh
               texts Ets).
    exact Htext.
Qed.

End RewriteNoCapture.

(** X19. Macros without a Placeholder are never applied by the rewriter:
    against a Registry all of whose templates are free of Placeholders, are
    not ExtractionNodes and have no ExtractionNode under their operands,
    rewriting the text of an expression that the interpreter reads back
    returns that text, as it does against an empty Registry. *)
Theorem crewrite_ignores_macros_without_placeholder
        (render_cdataset : pydict string -> string)
        (render_ctree : string -> string -> list string -> pydict pylit -> string)
        (render_scriptChild : string -> string -> string)
        (render_cpage : list Z -> list Z -> list (list string) -> string -> string)
        (eval_crs : string -> outcome pyobj)
        (macros : pydict pyobj)
        (E : pyobj) (text : string) (depth : nat) (alsoAtTop : bool) :
  captures_nothing macros ->
  buildcrs render_cdataset render_ctree render_scriptChild render_cpage E
  = Returns text ->
  round_trips render_cdataset render_ctree render_scriptChild render_cpage
              eval_crs E ->
  height E < depth ->
  crewrite render_cdataset render_ctree render_scriptChild render_cpage
           eval_crs depth macros text alsoAtTop
  = Returns text.
Proof.
  intros Hnone Htext Hrt Hh.
  exact (rewrite_unchanged_against_all render_cdataset render_ctree
           render_scriptChild render_cpage eval_crs macros E Hnone
           text Htext Hrt depth alsoAtTop Hh).
Qed.

Lemma crewrite_ignores_macros_without_placeholder_witness :
  captures_nothing [("rstrst", ctree "sub" "sub.sh" [Example.rst; Example.rstcs] [])]
  /\ crewrite Example.render_cdataset Example.render_ctree
              Example.render_scriptChild Example.render_cpage
              Example.eval_crs 10
              [("rstrst", ctree "sub" "sub.sh" [Example.rst; Example.rstcs] [])]
              "sub(ds(variable='rst'),ds(variable='rstcs'))" true
     = Returns "sub(ds(variable='rst'),ds(variable='rstcs'))".
Proof.
  assert (Hnone : captures_nothing
                    [("rstrst",
                      ctree "sub" "sub.sh" [Example.rst; Example.rstcs] [])]).
  { intros m t [H|[]]. inversion H; subst. now cbn. }
  split; [exact Hnone |].
  refine (crewrite_ignores_macros_without_placeholder
            Example.render_cdataset Example.render_ctree
            Example.render_scriptChild Example.render_cpage
            Example.eval_crs
            [("rstrst", ctree "sub" "sub.sh" [Example.rst; Example.rstcs] [])]
            Example.crest
            "sub(ds(variable='rst'),ds(variable='rstcs'))" 10 true
            Hnone eq_refl _ _).
  - cbn. repeat split; intros text H; inversion H; reflexivity.
  - cbn. lia.
Defined.
